(** * Category detection and specialised tokenization

    A shallow embedding of [routes/tokenization_categories.py] (the static
    category table, the extension lookup and the keyword classifier) and of
    [routes/specialized_tokenization.py] (the per-category token allocation).

    Modelling conventions.
    - Python [str] values are [string]s of 8-bit characters; [lower] acts on
      the letters A-Z, as [str.lower] does on ASCII text.
    - Python [dict] literals are association lists in insertion order, since
      iteration order decides both the extension lookup and the arg-max.
    - Python [float]s are exact rationals [Q]; integers are [Z].
    - A raised exception is [None]; [random] and [time] are read from an
      explicit [World]. *)

From Stdlib Require Import String Ascii List ZArith QArith Qround Bool Lia Lqa.
Import ListNotations.
Open Scope string_scope.
Open Scope Q_scope.

(** ** Strings *)

Module Str.

Definition is_upper (c : ascii) : bool :=
  let n := nat_of_ascii c in (65 <=? n)%nat && (n <=? 90)%nat.

Definition lower_char (c : ascii) : ascii :=
  if is_upper c then ascii_of_nat (nat_of_ascii c + 32) else c.

(** [s.lower()] *)
Fixpoint lower (s : string) : string :=
  match s with
  | EmptyString => EmptyString
  | String c t => String (lower_char c) (lower t)
  end.

(** [s.lstrip('.')] *)
Fixpoint lstrip_dot (s : string) : string :=
  match s with
  | String "."%char t => lstrip_dot t
  | _ => s
  end.

(** The characters [str.strip()] removes: tab to carriage return, the four
    separators 28-31 and the space. *)
Definition is_space (c : ascii) : bool :=
  let n := nat_of_ascii c in
  ((9 <=? n)%nat && (n <=? 13)%nat) || ((28 <=? n)%nat && (n <=? 32)%nat).

Fixpoint lstrip (s : string) : string :=
  match s with
  | String c t => if is_space c then lstrip t else s
  | EmptyString => EmptyString
  end.

Fixpoint rstrip (s : string) : string :=
  match s with
  | EmptyString => EmptyString
  | String c t =>
      match rstrip t with
      | EmptyString => if is_space c then EmptyString else String c EmptyString
      | t' => String c t'
      end
  end.

(** [s.strip()] *)
Definition strip (s : string) : string := rstrip (lstrip s).

(** [kw in text] on strings: [kw] occurs as a contiguous substring. *)
Fixpoint contains (kw text : string) : bool :=
  String.prefix kw text
  || match text with
     | EmptyString => false
     | String _ t => contains kw t
     end.

(** [x in xs] on a list of strings. *)
Definition mem (x : string) (xs : list string) : bool :=
  existsb (String.eqb x) xs.

End Str.

(** ** Dictionaries in insertion order *)

Definition dict (V : Type) : Type := list (string * V).

Fixpoint dict_get {V : Type} (k : string) (d : dict V) : option V :=
  match d with
  | [] => None
  | (k', v) :: d' => if String.eqb k k' then Some v else dict_get k d'
  end.

Definition dict_mem {V : Type} (k : string) (d : dict V) : bool :=
  match dict_get k d with Some _ => true | None => false end.

(** ** Numbers *)

Definition Qltb (x y : Q) : bool :=
  match x ?= y with Lt => true | _ => false end.

(** [min(a, b)] keeps its first argument unless the second is smaller. *)
Definition py_min (a b : Q) : Q := if Qltb b a then b else a.

(** Rounding to the nearest integer, ties to the even one. *)
Definition round_half_even (x : Q) : Z :=
  let f := Qfloor x in
  match ((x - inject_Z f) ?= (1 # 2))%Q with
  | Lt => f
  | Gt => f + 1
  | Eq => if Z.even f then f else f + 1
  end%Z.

(** [round(x, ndigits)], in lowest terms. *)
Definition py_round (x : Q) (ndigits : nat) : Q :=
  let scale := inject_Z (10 ^ Z.of_nat ndigits) in
  Qred (inject_Z (round_half_even (x * scale)) / scale).

(** [int(a * b / 100)] for integers [a], [b]: the quotient truncates
    towards zero. *)
Definition int_div (a b : Z) : Z := Z.quot a b.

(** ** The static category table *)

Record RightsBucket : Type := {
  description : string;
  percentage : Z;
  base_value : Q
}.

Definition Structure : Type := dict RightsBucket.

Record Category : Type := {
  name : string;
  cat_description : string;
  file_types : list string;
  tokenization_structure : Structure
}.

Definition CONTENT_CATEGORIES : dict Category :=
  [ ("film",
     {| name := "Film & Cinema";
        cat_description := "Feature films, short films, documentaries, and cinematic content";
        file_types := ["mp4"; "mov"; "avi"; "mkv"; "wmv"];
        tokenization_structure :=
       [
         ("cinematography_rights", {| description := "Visual composition, camera work, and cinematographic elements";
             percentage := 25; base_value := 60.0 |});
         ("audio_soundtrack_rights", {| description := "Original music, sound design, and audio production";
             percentage := 20; base_value := 45.0 |});
         ("narrative_story_rights", {| description := "Plot, storyline, and narrative structure";
             percentage := 20; base_value := 50.0 |});
         ("character_performance_rights", {| description := "Character development and performance elements";
             percentage := 15; base_value := 40.0 |});
         ("production_design_rights", {| description := "Set design, costumes, and visual production elements";
             percentage := 10; base_value := 35.0 |});
         ("distribution_licensing_rights", {| description := "Rights to distribute and license the film";
             percentage := 10; base_value := 30.0 |}) ] |});
    ("animation",
     {| name := "Animation & Motion Graphics";
        cat_description := "Animated content, motion graphics, and digital animation";
        file_types := ["mp4"; "mov"; "gif"; "webm"];
        tokenization_structure :=
       [
         ("animation_artistry_rights", {| description := "Animation techniques, style, and artistic execution";
             percentage := 30; base_value := 55.0 |});
         ("character_design_rights", {| description := "Original character designs and visual development";
             percentage := 25; base_value := 50.0 |});
         ("story_concept_rights", {| description := "Narrative concept and storytelling approach";
             percentage := 20; base_value := 45.0 |});
         ("audio_design_rights", {| description := "Sound effects, music, and audio synchronization";
             percentage := 15; base_value := 35.0 |});
         ("technical_innovation_rights", {| description := "Technical animation methods and innovations";
             percentage := 10; base_value := 40.0 |}) ] |});
    ("screenplay",
     {| name := "Screenplay Writing";
        cat_description := "Film scripts, TV scripts, and screenplay content";
        file_types := ["pdf"; "txt"; "doc"; "docx"; "rtf"];
        tokenization_structure :=
       [
         ("dialogue_rights", {| description := "Original dialogue and character voice";
             percentage := 30; base_value := 45.0 |});
         ("plot_structure_rights", {| description := "Story structure, plot development, and pacing";
             percentage := 25; base_value := 50.0 |});
         ("character_development_rights", {| description := "Character arcs, personalities, and development";
             percentage := 20; base_value := 40.0 |});
         ("scene_description_rights", {| description := "Scene setting, action descriptions, and visual elements";
             percentage := 15; base_value := 35.0 |});
         ("adaptation_rights", {| description := "Rights to adapt the screenplay for different media";
             percentage := 10; base_value := 55.0 |}) ] |});
    ("book_writing",
     {| name := "Book & Literature Writing";
        cat_description := "Novels, non-fiction books, poetry, and literary works";
        file_types := ["pdf"; "txt"; "doc"; "docx"; "epub"];
        tokenization_structure :=
       [
         ("narrative_prose_rights", {| description := "Writing style, prose, and narrative voice";
             percentage := 35; base_value := 50.0 |});
         ("plot_concept_rights", {| description := "Original plot, story concept, and structure";
             percentage := 25; base_value := 45.0 |});
         ("character_creation_rights", {| description := "Original characters and character development";
             percentage := 20; base_value := 40.0 |});
         ("world_building_rights", {| description := "Setting, world creation, and environmental details";
             percentage := 10; base_value := 35.0 |});
         ("publishing_adaptation_rights", {| description := "Rights to publish and adapt in different formats";
             percentage := 10; base_value := 60.0 |}) ] |});
    ("digital_art",
     {| name := "Digital Art & Illustration";
        cat_description := "Digital paintings, illustrations, and artistic creations";
        file_types := ["jpg"; "jpeg"; "png"; "gif"; "bmp"; "tiff"; "webp"];
        tokenization_structure :=
       [
         ("artistic_composition_rights", {| description := "Visual composition, color theory, and artistic style";
             percentage := 40; base_value := 55.0 |});
         ("concept_originality_rights", {| description := "Original concept, theme, and creative vision";
             percentage := 25; base_value := 50.0 |});
         ("technical_execution_rights", {| description := "Digital technique, skill, and technical innovation";
             percentage := 20; base_value := 45.0 |});
         ("commercial_usage_rights", {| description := "Rights for commercial use and reproduction";
             percentage := 15; base_value := 65.0 |}) ] |});
    ("photography",
     {| name := "Photography";
        cat_description := "Original photographs and photographic art";
        file_types := ["jpg"; "jpeg"; "png"; "raw"; "tiff"];
        tokenization_structure :=
       [
         ("photographic_composition_rights", {| description := "Composition, framing, and photographic vision";
             percentage := 35; base_value := 50.0 |});
         ("subject_capture_rights", {| description := "Original subject matter and moment capture";
             percentage := 25; base_value := 45.0 |});
         ("technical_photography_rights", {| description := "Camera technique, lighting, and technical execution";
             percentage := 20; base_value := 40.0 |});
         ("post_processing_rights", {| description := "Digital editing, color grading, and enhancement";
             percentage := 10; base_value := 35.0 |});
         ("commercial_licensing_rights", {| description := "Rights for commercial use and licensing";
             percentage := 10; base_value := 70.0 |}) ] |});
    ("music_composition",
     {| name := "Music Composition";
        cat_description := "Original music compositions and musical works";
        file_types := ["mp3"; "wav"; "aac"; "flac"; "ogg"; "m4a"];
        tokenization_structure :=
       [
         ("melody_composition_rights", {| description := "Original melody, musical themes, and composition";
             percentage := 30; base_value := 55.0 |});
         ("lyrical_content_rights", {| description := "Song lyrics, vocal content, and lyrical creativity";
             percentage := 25; base_value := 45.0 |});
         ("arrangement_production_rights", {| description := "Musical arrangement, instrumentation, and production";
             percentage := 20; base_value := 50.0 |});
         ("performance_rights", {| description := "Performance and recording rights";
             percentage := 15; base_value := 60.0 |});
         ("synchronization_rights", {| description := "Rights for use in media, films, and advertisements";
             percentage := 10; base_value := 75.0 |}) ] |});
    ("podcast_audio",
     {| name := "Podcast & Audio Content";
        cat_description := "Podcasts, audio shows, and spoken content";
        file_types := ["mp3"; "wav"; "aac"; "m4a"];
        tokenization_structure :=
       [
         ("content_creation_rights", {| description := "Original content, topics, and creative approach";
             percentage := 35; base_value := 40.0 |});
         ("host_personality_rights", {| description := "Host persona, style, and unique presentation";
             percentage := 25; base_value := 35.0 |});
         ("production_quality_rights", {| description := "Audio production, editing, and technical quality";
             percentage := 20; base_value := 30.0 |});
         ("format_concept_rights", {| description := "Show format, structure, and conceptual framework";
             percentage := 10; base_value := 45.0 |});
         ("distribution_syndication_rights", {| description := "Rights to distribute and syndicate content";
             percentage := 10; base_value := 50.0 |}) ] |});
    ("software_code",
     {| name := "Software & Code";
        cat_description := "Software applications, code, and digital tools";
        file_types := ["py"; "js"; "html"; "css"; "java"; "cpp"; "zip"];
        tokenization_structure :=
       [
         ("algorithm_logic_rights", {| description := "Core algorithms, logic, and computational methods";
             percentage := 35; base_value := 60.0 |});
         ("user_interface_rights", {| description := "UI/UX design, interface, and user experience";
             percentage := 25; base_value := 45.0 |});
         ("architecture_design_rights", {| description := "Software architecture and system design";
             percentage := 20; base_value := 55.0 |});
         ("innovation_patent_rights", {| description := "Technical innovations and patentable methods";
             percentage := 10; base_value := 80.0 |});
         ("commercial_licensing_rights", {| description := "Rights to license and commercialize the software";
             percentage := 10; base_value := 70.0 |}) ] |});
    ("video_games",
     {| name := "Video Games & Interactive Media";
        cat_description := "Video games, interactive entertainment, and game-related content";
        file_types := ["exe"; "apk"; "ipa"; "unity"; "unreal"; "zip"; "rar"; "mp4"; "mov"];
        tokenization_structure :=
       [
         ("visual_art_assets_rights", {| description := "Character designs, environments, textures, UI art, and visual assets";
             percentage := 25; base_value := 55.0 |});
         ("audio_music_rights", {| description := "Original soundtrack, background music, and musical compositions";
             percentage := 15; base_value := 50.0 |});
         ("sound_effects_rights", {| description := "Sound effects, voice acting, and audio design";
             percentage := 10; base_value := 40.0 |});
         ("narrative_story_rights", {| description := "Storyline, dialogue, lore, and narrative content";
             percentage := 15; base_value := 45.0 |});
         ("gameplay_mechanics_rights", {| description := "Game mechanics, rules, systems, and interactive design";
             percentage := 20; base_value := 60.0 |});
         ("code_programming_rights", {| description := "Source code, programming, and technical implementation";
             percentage := 10; base_value := 65.0 |});
         ("distribution_licensing_rights", {| description := "Rights to distribute, publish, and license the game";
             percentage := 5; base_value := 75.0 |}) ] |}) ].


(** [get_category_by_file_extension]: the first category, in table order,
    that lists the normalised extension. *)
Definition get_category_by_file_extension (file_extension : string) : string :=
  let file_ext := Str.lstrip_dot (Str.lower file_extension) in
  match find (fun entry => Str.mem file_ext (file_types (snd entry)))
             CONTENT_CATEGORIES with
  | Some (category_id, _) => category_id
  | None => "digital_art"
  end.

(** ** The keyword classifier *)

Record Pattern : Type := {
  keywords : list string;
  pattern_file_types : list string;
  confidence_boost : Q
}.

Definition keyword_patterns : dict Pattern :=
  [ ("film",
     {| keywords := ["movie"; "film"; "cinema"; "documentary"; "feature"; "short film"; "trailer"; "scene"];
        pattern_file_types := ["mp4"; "mov"; "avi"; "mkv"; "wmv"; "m4v"; "flv"];
        confidence_boost := 0.15 |});
    ("screenplay",
     {| keywords := ["screenplay"; "script"; "dialogue"; "scene"; "act"; "fade in"; "fade out"; "treatment"];
        pattern_file_types := ["pdf"; "txt"; "doc"; "docx"; "rtf"; "fountain"];
        confidence_boost := 0.20 |});
    ("music",
     {| keywords := ["song"; "music"; "track"; "album"; "beat"; "melody"; "audio"; "sound"];
        pattern_file_types := ["mp3"; "wav"; "flac"; "aac"; "m4a"; "ogg"];
        confidence_boost := 0.18 |});
    ("book_writing",
     {| keywords := ["book"; "novel"; "chapter"; "story"; "manuscript"; "literature"; "writing"; "text"];
        pattern_file_types := ["pdf"; "txt"; "doc"; "docx"; "epub"; "rtf"];
        confidence_boost := 0.16 |});
    ("digital_art",
     {| keywords := ["art"; "design"; "illustration"; "graphic"; "visual"; "artwork"; "drawing"; "painting"];
        pattern_file_types := ["jpg"; "jpeg"; "png"; "gif"; "bmp"; "svg"; "psd"; "ai"];
        confidence_boost := 0.14 |});
    ("photography",
     {| keywords := ["photo"; "photograph"; "image"; "picture"; "shot"; "portrait"; "landscape"];
        pattern_file_types := ["jpg"; "jpeg"; "png"; "raw"; "tiff"; "cr2"; "nef"];
        confidence_boost := 0.17 |});
    ("animation",
     {| keywords := ["animation"; "animated"; "cartoon"; "motion"; "frame"; "tween"; "3d"; "2d"];
        pattern_file_types := ["mp4"; "mov"; "gif"; "avi"; "mkv"; "swf"];
        confidence_boost := 0.19 |});
    ("gaming",
     {| keywords := ["game"; "gaming"; "level"; "character"; "gameplay"; "interactive"; "unity"; "unreal"];
        pattern_file_types := ["exe"; "apk"; "ipa"; "unity"; "unreal"; "zip"];
        confidence_boost := 0.13 |});
    ("software",
     {| keywords := ["app"; "software"; "program"; "code"; "application"; "tool"; "utility"];
        pattern_file_types := ["exe"; "dmg"; "apk"; "ipa"; "zip"; "tar"; "gz"];
        confidence_boost := 0.12 |}) ].

(** The ['method'] field of a detection result; [method_name] gives the
    string the source stores. *)
Inductive Method : Type :=
| enhanced_keyword_analysis
| file_extension_fallback
| default_fallback.

Definition method_name (m : Method) : string :=
  match m with
  | enhanced_keyword_analysis => "enhanced_keyword_analysis"
  | file_extension_fallback => "file_extension_fallback"
  | default_fallback => "default_fallback"
  end.

Record Detection : Type := {
  category : string;
  confidence : Q;
  method : Method;
  detected_keywords : list string;
  all_scores : dict Q
}.

Definition video_types : list string := ["mp4"; "mov"; "avi"; "mkv"; "wmv"].
Definition text_types : list string := ["pdf"; "txt"; "doc"; "docx"].
Definition audio_types : list string := ["mp3"; "wav"; "flac"; "aac"].

Definition strong_contradiction (file_ext category_id : string) : bool :=
  (Str.mem file_ext video_types
   && Str.mem category_id ["screenplay"; "book_writing"])
  || (Str.mem file_ext text_types
      && Str.mem category_id ["film"; "music"; "animation"])
  || (Str.mem file_ext audio_types
      && Str.mem category_id ["film"; "digital_art"; "photography"]).

(** One turn of the keyword loop on [(keyword_matches, score)]. *)
Definition match_keyword (text : string) (acc : nat * Q) (keyword : string)
  : nat * Q :=
  if Str.contains keyword text
  then (S (fst acc),
        snd acc + (0.1 + inject_Z (Z.of_nat (String.length keyword)) * 0.01))
  else acc.

(** The body of the loop over [keyword_patterns.items()]. *)
Definition category_score (file_ext text category_id : string)
    (pattern_data : Pattern) : Q :=
  let score := 0.0 in
  let score :=
    if Str.mem file_ext (pattern_file_types pattern_data)
    then score + 0.4 else score in
  let acc := fold_left (match_keyword text) (keywords pattern_data)
                       (0%nat, score) in
  let keyword_matches := fst acc in
  let score := snd acc in
  let score :=
    if (0 <? keyword_matches)%nat
    then score + confidence_boost pattern_data
         + py_min (inject_Z (Z.of_nat keyword_matches) * 0.05) 0.2
    else score in
  let score :=
    if (0 <? keyword_matches)%nat
       && negb (Str.mem file_ext (pattern_file_types pattern_data))
    then if strong_contradiction file_ext category_id
         then score * 0.3 else score * 0.7
    else score in
  py_min score 1.0.

Definition category_scores_of (file_ext text : string) : dict Q :=
  map (fun entry => (fst entry, category_score file_ext text (fst entry) (snd entry)))
      keyword_patterns.

(** [max(items, key=lambda x: x[1])]: the first item of greatest score;
    [None] on an empty dictionary. *)
Definition py_max_by_score (items : dict Q) : option (string * Q) :=
  match items with
  | [] => None
  | first :: rest =>
      Some (fold_left
              (fun best item => if Qltb (snd best) (snd item) then item else best)
              rest first)
  end.

(** The part of [enhanced_auto_detect_category] after the scoring loop.
    [None] is the [KeyError] of [keyword_patterns[best_category[0]]]. *)
Definition select_result (file_extension text : string)
    (category_scores : dict Q) : option Detection :=
  match py_max_by_score category_scores with
  | Some best_category =>
      let confidence := snd best_category in
      if Qltb confidence 0.3 then
        Some {| category := get_category_by_file_extension file_extension;
                confidence := 0.85;
                method := file_extension_fallback;
                detected_keywords := [];
                all_scores := category_scores |}
      else
        match dict_get (fst best_category) keyword_patterns with
        | None => None
        | Some winning_pattern =>
            Some {| category := fst best_category;
                    confidence := py_min (confidence + 0.05) 0.98;
                    method := enhanced_keyword_analysis;
                    detected_keywords :=
                      filter (fun kw => Str.contains kw text)
                             (keywords winning_pattern);
                    all_scores := category_scores |}
        end
  | None =>
      Some {| category := "digital_art";
              confidence := 0.75;
              method := default_fallback;
              detected_keywords := [];
              all_scores := [] |}
  end.

Definition text_to_analyze (filename content_title : string) : string :=
  Str.strip (Str.lower filename ++ " " ++ Str.lower content_title).

Definition enhanced_auto_detect_category
    (filename file_extension content_title : string) : option Detection :=
  let file_ext := Str.lstrip_dot (Str.lower file_extension) in
  let text := text_to_analyze filename content_title in
  select_result file_extension text (category_scores_of file_ext text).

Definition get_category_tokenization_structure (category_id : string)
  : option Structure :=
  let category_id :=
    if negb (dict_mem category_id CONTENT_CATEGORIES)
    then "digital_art" else category_id in
  option_map tokenization_structure (dict_get category_id CONTENT_CATEGORIES).

Definition validate_category_selection (category_id file_extension : string)
  : bool :=
  match dict_get category_id CONTENT_CATEGORIES with
  | None => false
  | Some c => Str.mem (Str.lstrip_dot (Str.lower file_extension)) (file_types c)
  end.

(** ** The world: random numbers, the clock, exceptions *)

Record World : Type := {
  random_draws : nat -> Q;   (* the successive values of [random.random()] *)
  random_pos : nat;
  clock : Z                  (* [int(time.time())] *)
}.

Definition M (A : Type) : Type := World -> option (A * World).

Definition ret {A : Type} (a : A) : M A := fun w => Some (a, w).

Definition bind {A B : Type} (m : M A) (k : A -> M B) : M B :=
  fun w => match m w with
           | Some (a, w') => k a w'
           | None => None
           end.

Notation "x <- m ;; k" := (bind m (fun x => k))
  (at level 61, m at next level, right associativity).

(** A dictionary access that raises [KeyError] when it finds nothing. *)
Definition lift_option {A : Type} (o : option A) : M A :=
  fun w => match o with Some a => Some (a, w) | None => None end.

(** [random.uniform(a, b)] is [a + (b - a) * random()]. *)
Definition random_uniform (a b : Q) : M Q :=
  fun w => Some (a + (b - a) * random_draws w (random_pos w),
                 {| random_draws := random_draws w;
                    random_pos := S (random_pos w);
                    clock := clock w |}).

Definition time_time : M Z := fun w => Some (clock w, w).

(** ** Specialised tokenization *)

Definition Analysis : Type := dict Q.

(** [analysis.get('originality_score', 90) / 100] *)
Definition originality_factor_of (analysis : Analysis) : Q :=
  match dict_get "originality_score" analysis with
  | Some v => v
  | None => 90
  end / 100.

Record CategoryFactors : Type := {
  cf_originality_factor : Q;
  cf_value_multiplier : Q
}.

Record TokenEntry : Type := {
  entry_description : string;
  token_count : Z;
  token_value_usd : Q;
  total_value_usd : Q;
  available_tokens : Z;
  sold_tokens : Z;
  category_factors : CategoryFactors
}.

Inductive Meta : Type :=
| MetaStr (s : string)
| MetaNum (q : Q).

(** The dictionary a tokenizer returns. [grand_total_value_usd] is its
    ['total_value_usd'] key, absent until [create_specialized_tokenization]
    sets it. *)
Record Tokenization : Type := {
  content_id : string;
  content_category : string;
  total_tokens : Z;
  token_categories : dict TokenEntry;
  created_timestamp : Z;
  originality_factor : Q;
  version : string;
  category_analysis : dict Meta;
  grand_total_value_usd : option Q
}.

Definition set_token_categories (t : Tokenization) (tc : dict TokenEntry)
    (ca : dict Meta) : Tokenization :=
  {| content_id := content_id t;
     content_category := content_category t;
     total_tokens := total_tokens t;
     token_categories := tc;
     created_timestamp := created_timestamp t;
     originality_factor := originality_factor t;
     version := version t;
     category_analysis := ca;
     grand_total_value_usd := grand_total_value_usd t |}.

Definition set_total_value_usd (t : Tokenization) (v : Q) : Tokenization :=
  {| content_id := content_id t;
     content_category := content_category t;
     total_tokens := total_tokens t;
     token_categories := token_categories t;
     created_timestamp := created_timestamp t;
     originality_factor := originality_factor t;
     version := version t;
     category_analysis := category_analysis t;
     grand_total_value_usd := Some v |}.

Record SpecializedTokenizer : Type := { self_total_tokens : Z }.

(** [SpecializedTokenizer.__init__] *)
Definition SpecializedTokenizer_init : SpecializedTokenizer :=
  {| self_total_tokens := 1000 |}.

Definition _create_base_tokenization (self : SpecializedTokenizer)
    (cid category : string) (analysis : Analysis) : M Tokenization :=
  now <- time_time ;;
  ret {| content_id := cid;
         content_category := category;
         total_tokens := self_total_tokens self;
         token_categories := [];
         created_timestamp := now;
         originality_factor := originality_factor_of analysis;
         version := "1.1";
         category_analysis := [];
         grand_total_value_usd := None |}.

(** The entry a specialised tokenizer stores for one rights bucket. *)
Definition specialized_entry (self : SpecializedTokenizer)
    (originality_factor value_multiplier : Q) (details : RightsBucket)
  : TokenEntry :=
  let token_count := int_div (self_total_tokens self * percentage details) 100 in
  let token_value := base_value details * originality_factor * value_multiplier in
  {| entry_description := description details;
     token_count := token_count;
     token_value_usd := py_round token_value 2;
     total_value_usd := py_round (token_value * inject_Z token_count) 2;
     available_tokens := token_count;
     sold_tokens := 0;
     category_factors :=
       {| cf_originality_factor := py_round originality_factor 3;
          cf_value_multiplier := py_round value_multiplier 3 |} |}.

(** The loop [for category, details in structure.items()] of a specialised
    tokenizer; [value_multiplier] is its [if]/[elif] chain on the bucket
    name. The keys of [structure] are distinct, so each turn adds an entry. *)
Definition specialized_entries (self : SpecializedTokenizer)
    (structure : Structure) (originality_factor : Q)
    (value_multiplier : string -> Q) : dict TokenEntry :=
  map (fun item =>
         (fst item,
          specialized_entry self originality_factor
                            (value_multiplier (fst item)) (snd item)))
      structure.

Definition score100 (factor : Q) : Meta := MetaNum (py_round (factor * 100) 1).

Definition tokenize_film (self : SpecializedTokenizer) (cid : string)
    (analysis : Analysis) : M Tokenization :=
  structure <- lift_option (get_category_tokenization_structure "film") ;;
  let originality_factor := originality_factor_of analysis in
  production_quality <- random_uniform 0.8 1.0 ;;
  narrative_complexity <- random_uniform 0.7 0.95 ;;
  technical_innovation <- random_uniform 0.6 0.9 ;;
  commercial_potential <- random_uniform 0.5 0.85 ;;
  tokenization <- _create_base_tokenization self cid "film" analysis ;;
  let value_multiplier category :=
    if Str.contains "cinematography" category then 1.0 * technical_innovation
    else if Str.contains "narrative" category then 1.0 * narrative_complexity
    else if Str.contains "distribution" category then 1.0 * commercial_potential
    else 1.0 in
  ret (set_token_categories tokenization
         (specialized_entries self structure originality_factor value_multiplier)
         [ ("content_category", MetaStr "film");
           ("production_quality_score", score100 production_quality);
           ("narrative_complexity_score", score100 narrative_complexity);
           ("technical_innovation_score", score100 technical_innovation);
           ("commercial_potential_score", score100 commercial_potential) ]).

Definition tokenize_animation (self : SpecializedTokenizer) (cid : string)
    (analysis : Analysis) : M Tokenization :=
  structure <- lift_option (get_category_tokenization_structure "animation") ;;
  let originality_factor := originality_factor_of analysis in
  artistic_style <- random_uniform 0.8 1.0 ;;
  animation_quality <- random_uniform 0.7 0.95 ;;
  character_appeal <- random_uniform 0.6 0.9 ;;
  technical_complexity <- random_uniform 0.5 0.85 ;;
  tokenization <- _create_base_tokenization self cid "animation" analysis ;;
  let value_multiplier category :=
    if Str.contains "artistry" category then 1.0 * artistic_style
    else if Str.contains "character" category then 1.0 * character_appeal
    else if Str.contains "technical" category then 1.0 * technical_complexity
    else 1.0 in
  ret (set_token_categories tokenization
         (specialized_entries self structure originality_factor value_multiplier)
         [ ("content_category", MetaStr "animation");
           ("artistic_style_score", score100 artistic_style);
           ("animation_quality_score", score100 animation_quality);
           ("character_appeal_score", score100 character_appeal);
           ("technical_complexity_score", score100 technical_complexity) ]).

Definition tokenize_screenplay (self : SpecializedTokenizer) (cid : string)
    (analysis : Analysis) : M Tokenization :=
  structure <- lift_option (get_category_tokenization_structure "screenplay") ;;
  let originality_factor := originality_factor_of analysis in
  dialogue_quality <- random_uniform 0.8 1.0 ;;
  plot_originality <- random_uniform 0.7 0.95 ;;
  character_depth <- random_uniform 0.6 0.9 ;;
  adaptation_potential <- random_uniform 0.5 0.85 ;;
  tokenization <- _create_base_tokenization self cid "screenplay" analysis ;;
  let value_multiplier category :=
    if Str.contains "dialogue" category then 1.0 * dialogue_quality
    else if Str.contains "plot" category then 1.0 * plot_originality
    else if Str.contains "character" category then 1.0 * character_depth
    else if Str.contains "adaptation" category then 1.0 * adaptation_potential
    else 1.0 in
  ret (set_token_categories tokenization
         (specialized_entries self structure originality_factor value_multiplier)
         [ ("content_category", MetaStr "screenplay");
           ("dialogue_quality_score", score100 dialogue_quality);
           ("plot_originality_score", score100 plot_originality);
           ("character_depth_score", score100 character_depth);
           ("adaptation_potential_score", score100 adaptation_potential) ]).

Definition tokenize_book_writing (self : SpecializedTokenizer) (cid : string)
    (analysis : Analysis) : M Tokenization :=
  structure <- lift_option (get_category_tokenization_structure "book_writing") ;;
  let originality_factor := originality_factor_of analysis in
  prose_quality <- random_uniform 0.8 1.0 ;;
  narrative_innovation <- random_uniform 0.7 0.95 ;;
  world_building <- random_uniform 0.6 0.9 ;;
  market_appeal <- random_uniform 0.5 0.85 ;;
  tokenization <- _create_base_tokenization self cid "book_writing" analysis ;;
  let value_multiplier category :=
    if Str.contains "prose" category then 1.0 * prose_quality
    else if Str.contains "plot" category then 1.0 * narrative_innovation
    else if Str.contains "world" category then 1.0 * world_building
    else if Str.contains "publishing" category then 1.0 * market_appeal
    else 1.0 in
  ret (set_token_categories tokenization
         (specialized_entries self structure originality_factor value_multiplier)
         [ ("content_category", MetaStr "book_writing");
           ("prose_quality_score", score100 prose_quality);
           ("narrative_innovation_score", score100 narrative_innovation);
           ("world_building_score", score100 world_building);
           ("market_appeal_score", score100 market_appeal) ]).

Definition tokenize_digital_art (self : SpecializedTokenizer) (cid : string)
    (analysis : Analysis) : M Tokenization :=
  structure <- lift_option (get_category_tokenization_structure "digital_art") ;;
  let originality_factor := originality_factor_of analysis in
  artistic_skill <- random_uniform 0.8 1.0 ;;
  concept_originality <- random_uniform 0.7 0.95 ;;
  technical_execution <- random_uniform 0.6 0.9 ;;
  commercial_viability <- random_uniform 0.5 0.85 ;;
  tokenization <- _create_base_tokenization self cid "digital_art" analysis ;;
  let value_multiplier category :=
    if Str.contains "composition" category then 1.0 * artistic_skill
    else if Str.contains "concept" category then 1.0 * concept_originality
    else if Str.contains "technical" category then 1.0 * technical_execution
    else if Str.contains "commercial" category then 1.0 * commercial_viability
    else 1.0 in
  ret (set_token_categories tokenization
         (specialized_entries self structure originality_factor value_multiplier)
         [ ("content_category", MetaStr "digital_art");
           ("artistic_skill_score", score100 artistic_skill);
           ("concept_originality_score", score100 concept_originality);
           ("technical_execution_score", score100 technical_execution);
           ("commercial_viability_score", score100 commercial_viability) ]).

(** The entry [tokenize_generic] stores: no multiplier enters the value, and
    the recorded multiplier is the literal [1.0]. *)
Definition generic_entry (self : SpecializedTokenizer)
    (originality_factor : Q) (details : RightsBucket) : TokenEntry :=
  let token_count := int_div (self_total_tokens self * percentage details) 100 in
  let token_value := base_value details * originality_factor in
  {| entry_description := description details;
     token_count := token_count;
     token_value_usd := py_round token_value 2;
     total_value_usd := py_round (token_value * inject_Z token_count) 2;
     available_tokens := token_count;
     sold_tokens := 0;
     category_factors :=
       {| cf_originality_factor := py_round originality_factor 3;
          cf_value_multiplier := 1.0 |} |}.

Definition tokenize_generic (self : SpecializedTokenizer) (cid : string)
    (analysis : Analysis) (category : string) : M Tokenization :=
  structure <- lift_option (get_category_tokenization_structure category) ;;
  let originality_factor := originality_factor_of analysis in
  tokenization <- _create_base_tokenization self cid category analysis ;;
  ret (set_token_categories tokenization
         (map (fun item => (fst item, generic_entry self originality_factor (snd item)))
              structure)
         [ ("content_category", MetaStr category);
           ("tokenization_method", MetaStr "generic") ]).

Definition tokenize_video_games (self : SpecializedTokenizer) (cid : string)
    (analysis : Analysis) : M Tokenization :=
  structure <- lift_option (get_category_tokenization_structure "video_games") ;;
  let originality_factor := originality_factor_of analysis in
  artistic_quality <- random_uniform 0.8 1.0 ;;
  audio_production <- random_uniform 0.7 0.95 ;;
  narrative_depth <- random_uniform 0.6 0.9 ;;
  gameplay_innovation <- random_uniform 0.7 1.0 ;;
  technical_execution <- random_uniform 0.6 0.95 ;;
  commercial_potential <- random_uniform 0.5 0.85 ;;
  tokenization <- _create_base_tokenization self cid "video_games" analysis ;;
  let value_multiplier category :=
    if Str.contains "visual_art" category then 1.0 * artistic_quality
    else if Str.contains "audio_music" category then 1.0 * audio_production
    else if Str.contains "sound_effects" category
         then 1.0 * (audio_production * 0.9)
    else if Str.contains "narrative" category then 1.0 * narrative_depth
    else if Str.contains "gameplay" category then 1.0 * gameplay_innovation
    else if Str.contains "code_programming" category
         then 1.0 * technical_execution
    else if Str.contains "distribution" category then 1.0 * commercial_potential
    else 1.0 in
  ret (set_token_categories tokenization
         (specialized_entries self structure originality_factor value_multiplier)
         [ ("content_category", MetaStr "video_games");
           ("artistic_quality_score", score100 artistic_quality);
           ("audio_production_score", score100 audio_production);
           ("narrative_depth_score", score100 narrative_depth);
           ("gameplay_innovation_score", score100 gameplay_innovation);
           ("technical_execution_score", score100 technical_execution);
           ("commercial_potential_score", score100 commercial_potential) ]).

Definition Tokenizer : Type := string -> Analysis -> M Tokenization.

Definition tokenizer_map (self : SpecializedTokenizer) : dict Tokenizer :=
  [ ("film", tokenize_film self);
    ("animation", tokenize_animation self);
    ("screenplay", tokenize_screenplay self);
    ("book_writing", tokenize_book_writing self);
    ("digital_art", tokenize_digital_art self);
    ("video_games", tokenize_video_games self);
    ("photography", fun cid analysis => tokenize_generic self cid analysis "photography");
    ("music_composition",
      fun cid analysis => tokenize_generic self cid analysis "music_composition");
    ("podcast_audio", fun cid analysis => tokenize_generic self cid analysis "podcast_audio");
    ("software_code", fun cid analysis => tokenize_generic self cid analysis "software_code") ].

(** [tokenizer_map.get(category, lambda ...: self.tokenize_generic(..., category))] *)
Definition get_specialized_tokenizer (self : SpecializedTokenizer)
    (category : string) : Tokenizer :=
  match dict_get category (tokenizer_map self) with
  | Some tokenizer => tokenizer
  | None => fun cid analysis => tokenize_generic self cid analysis category
  end.

(** Python's truth value of an optional string: [None] and [''] are false. *)
Definition truthy (s : option string) : bool :=
  match s with
  | Some (String _ _) => true
  | _ => false
  end.

(** [sum(...)] starts from [0] and adds from the left. *)
Definition py_sum (xs : list Q) : Q := fold_left Qplus xs 0.

Definition create_specialized_tokenization (cid : string) (analysis : Analysis)
    (category file_extension : option string) : M Tokenization :=
  let category : string :=
    match category, file_extension with
    | Some (String c s), _ => String c s
    | _, Some (String c s) => get_category_by_file_extension (String c s)
    | _, _ => "digital_art"
    end in
  let tokenizer := SpecializedTokenizer_init in
  let tokenization_func := get_specialized_tokenizer tokenizer category in
  tokenization <- tokenization_func cid analysis ;;
  ret (set_total_value_usd tokenization
         (py_sum (map (fun cat => total_value_usd (snd cat))
                      (token_categories tokenization)))).

(** ** Vocabulary of the statements *)

(** No keyword of any pattern occurs in [text]. *)
Definition no_keywords (text : string) : bool :=
  forallb (fun entry =>
             forallb (fun kw => negb (Str.contains kw text)) (keywords (snd entry)))
          keyword_patterns.

Definition accepts (file_ext : string) (entry : string * Pattern) : bool :=
  Str.mem file_ext (pattern_file_types (snd entry)).

(** The first category, in pattern order, whose file types list [file_ext]. *)
Definition first_pattern_with_ext (file_ext : string) : option string :=
  option_map fst (find (accepts file_ext) keyword_patterns).

(** The extension is listed by no pattern and by no category of the table. *)
Definition unknown_extension (file_ext : string) : bool :=
  forallb (fun entry => negb (accepts file_ext entry)) keyword_patterns
  && forallb (fun entry => negb (Str.mem file_ext (file_types (snd entry))))
             CONTENT_CATEGORIES.

(** The third [random.uniform] of [tokenize_film]: its
    ['technical_innovation'] factor. *)
Definition film_technical_innovation (w : World) : Q :=
  0.6 + (0.9 - 0.6) * random_draws w (2 + random_pos w).

Definition token_counts (t : Tokenization) : list Z :=
  map (fun cat => token_count (snd cat)) (token_categories t).

Definition digital_art_structure : Structure :=
  match dict_get "digital_art" CONTENT_CATEGORIES with
  | Some c => tokenization_structure c
  | None => []
  end.

Definition sum_Z (l : list Z) : Z := fold_right Z.add 0%Z l.

Definition all_structures : list Structure :=
  map (fun entry => tokenization_structure (snd entry)) CONTENT_CATEGORIES.

(** [e] is an entry a tokenizer stores for the rights bucket [item], for
    some value multiplier. *)
Definition entry_for (self : SpecializedTokenizer) (factor : Q)
    (item : string * RightsBucket) (e : string * TokenEntry) : Prop :=
  fst e = fst item
  /\ token_count (snd e)
     = int_div (self_total_tokens self * percentage (snd item)) 100
  /\ available_tokens (snd e) = token_count (snd e)
  /\ sold_tokens (snd e) = 0%Z
  /\ entry_description (snd e) = description (snd item)
  /\ exists value_multiplier : Q,
      token_value_usd (snd e)
      = py_round (base_value (snd item) * factor * value_multiplier) 2
      /\ total_value_usd (snd e)
         = py_round (base_value (snd item) * factor * value_multiplier
                     * inject_Z (token_count (snd e))) 2.

(** The tokenizer [tk] of category [c] returns, in every world, a breakdown
    with one entry per bucket of the rights structure looked up for [c]. *)
Definition tokenizer_ok (self : SpecializedTokenizer) (c : string)
    (tk : Tokenizer) : Prop :=
  forall cid analysis w,
  exists s t w',
    get_category_tokenization_structure c = Some s
    /\ tk cid analysis w = Some (t, w')
    /\ total_tokens t = self_total_tokens self
    /\ content_id t = cid
    /\ content_category t = c
    /\ Forall2 (entry_for self (originality_factor_of analysis))
               s (token_categories t).

(** The category a call of [create_specialized_tokenization] works with. *)
Definition effective_category (category file_extension : option string) : string :=
  match category, file_extension with
  | Some (String c s), _ => String c s
  | _, Some (String c s) => get_category_by_file_extension (String c s)
  | _, _ => "digital_art"
  end.

(** What the claims need of a rights structure: non-negative percentages
    whose token counts stay within the budget [total]. *)
Definition structure_within (total : Z) (s : Structure) : bool :=
  forallb (fun item => (0 <=? percentage (snd item))%Z) s
  && (sum_Z (map (fun item => int_div (total * percentage (snd item)) 100) s)
      <=? total)%Z.

(** A world whose random source always returns [draw]. *)
Definition constant_world (draw : Q) : World :=
  {| random_draws := fun _ => draw; random_pos := 0; clock := 0 |}.

(** The classifier proposes [id] for the file by keyword analysis, and [id]
    is no key of the category table. *)
Definition proposes_unlisted (filename file_extension id : string) : Prop :=
  exists r,
    enhanced_auto_detect_category filename file_extension "" = Some r
    /\ category r = id
    /\ method r = enhanced_keyword_analysis
    /\ dict_mem id CONTENT_CATEGORIES = false.

(** Every allocation for the category [id] carries the buckets of
    "digital_art", valued by the generic rule or by another. *)
Definition allocated_as_digital_art (id : string) : Prop :=
  forall cid analysis file_extension w,
  exists t w',
    create_specialized_tokenization cid analysis (Some id) file_extension w
    = Some (t, w')
    /\ content_category t = id
    /\ map fst (token_categories t) = map fst digital_art_structure
    /\ Forall2 (entry_for SpecializedTokenizer_init
                          (originality_factor_of analysis))
               digital_art_structure (token_categories t).

(** ** The remaining helpers of the category module *)

Record CategoryInfo : Type := {
  info_name : string;
  info_description : string;
  info_file_types : list string
}.

(** [get_available_categories]: the table without the rights structures. *)
Definition get_available_categories : dict CategoryInfo :=
  map (fun entry =>
         (fst entry,
          {| info_name := name (snd entry);
             info_description := cat_description (snd entry);
             info_file_types := file_types (snd entry) |}))
      CONTENT_CATEGORIES.

(** The normalisation every entry point applies to a file extension. *)
Definition normalize_extension (file_extension : string) : string :=
  Str.lstrip_dot (Str.lower file_extension).

(** Some category of the table lists the extension. *)
Definition listed_extension (file_ext : string) : bool :=
  existsb (fun entry => Str.mem file_ext (file_types (snd entry)))
          CONTENT_CATEGORIES.

(** The number of [random.uniform] calls the tokenizer of a category makes. *)
Definition draws_consumed (category : string) : nat :=
  if Str.mem category ["film"; "animation"; "screenplay"; "book_writing";
                       "digital_art"]
  then 4
  else if String.eqb category "video_games" then 6 else 0.

(** The world after [k] more random draws. *)
Definition advance (w : World) (k : nat) : World :=
  {| random_draws := random_draws w;
     random_pos := k + random_pos w;
     clock := clock w |}.



(** * Properties *)

(** ** Numbers *)

Lemma Qltb_true (x y : Q) : Qltb x y = true <-> x < y.
Proof.
  unfold Qltb.
  destruct (Qcompare_spec x y) as [H | H | H]; split; intros G;
    try reflexivity; try discriminate; try assumption; lra.
Qed.

Lemma Qltb_false (x y : Q) : Qltb x y = false <-> y <= x.
Proof.
  unfold Qltb.
  destruct (Qcompare_spec x y) as [H | H | H]; split; intros G;
    try reflexivity; try discriminate; lra.
Qed.

Lemma py_min_le_r (a b : Q) : py_min a b <= b.
Proof.
  unfold py_min. destruct (Qltb b a) eqn:E.
  - apply Qle_refl.
  - now apply Qltb_false.
Qed.

Lemma py_min_ge (a b c : Q) : c <= a -> c <= b -> c <= py_min a b.
Proof. unfold py_min. now destruct (Qltb b a). Qed.

Lemma round_half_even_comp (x y : Q) :
  x == y -> round_half_even x = round_half_even y.
Proof.
  intros H. unfold round_half_even.
  rewrite (Qfloor_comp x y H).
  assert (E : (x - inject_Z (Qfloor y) ?= 1 # 2)
              = (y - inject_Z (Qfloor y) ?= 1 # 2)).
  { apply Qcompare_comp; [now rewrite H | reflexivity]. }
  now rewrite E.
Qed.

Lemma py_round_comp (x y : Q) (n : nat) : x == y -> py_round x n = py_round y n.
Proof.
  intros H. unfold py_round. apply Qred_complete.
  set (scale := inject_Z (10 ^ Z.of_nat n)).
  rewrite (round_half_even_comp (x * scale) (y * scale)); [reflexivity |].
  now rewrite H.
Qed.

Lemma py_round_zero (x : Q) (n : nat) : x == 0 -> py_round x n = 0.
Proof.
  intros H. rewrite (py_round_comp x 0 n H). unfold py_round.
  set (scale := inject_Z (10 ^ Z.of_nat n)).
  transitivity (Qred 0); [| reflexivity]. apply Qred_complete.
  rewrite (round_half_even_comp (0 * scale) 0) by apply Qmult_0_l.
  unfold Qdiv. apply Qmult_0_l.
Qed.

Lemma round_half_even_near (x : Q) :
  x - (1 # 2) <= inject_Z (round_half_even x) <= x + (1 # 2).
Proof.
  unfold round_half_even.
  pose proof (Qfloor_le x) as Hlo. pose proof (Qlt_floor x) as Hhi.
  rewrite inject_Z_plus in Hhi. change (inject_Z 1) with 1 in Hhi.
  destruct (Qcompare_spec (x - inject_Z (Qfloor x)) (1 # 2)) as [H | H | H];
    [destruct (Z.even (Qfloor x)) | |];
    rewrite ?inject_Z_plus; change (inject_Z 1) with 1; split; lra.
Qed.

(** Rounding to two decimal places moves a value by at most half a cent. *)
Lemma py_round_2_near (x : Q) :
  x - 0.005 <= py_round x 2 <= x + 0.005.
Proof.
  unfold py_round. rewrite Qred_correct.
  change (inject_Z (10 ^ Z.of_nat 2)) with 100.
  pose proof (round_half_even_near (x * 100)) as [Hlo Hhi].
  set (r := inject_Z (round_half_even (x * 100))) in *.
  assert (E : r / 100 == r * (1 # 100)) by (now field).
  rewrite E. split; lra.
Qed.

(** ** Dictionaries *)

Lemma dict_get_In {V : Type} (k : string) (d : dict V) (v : V) :
  dict_get k d = Some v -> In (k, v) d.
Proof.
  induction d as [| [k' v'] d IH]; simpl; [discriminate |].
  destruct (String.eqb_spec k k') as [-> | _].
  - intros [= ->]. now left.
  - intros H. right. now apply IH.
Qed.

Lemma dict_get_key {V : Type} (k : string) (d : dict V) :
  In k (map fst d) -> exists v, dict_get k d = Some v.
Proof.
  induction d as [| [k' v'] d IH]; simpl; [contradiction |].
  intros H. destruct (String.eqb_spec k k') as [-> | N].
  - now exists v'.
  - destruct H as [H | H]; [congruence | now apply IH].
Qed.

(** ** The classifier *)

Lemma py_max_by_score_In (items : dict Q) (best : string * Q) :
  py_max_by_score items = Some best -> In best items.
Proof.
  destruct items as [| first rest]; simpl; [discriminate |].
  intros [= <-]. revert first.
  induction rest as [| item rest IH]; intros first; simpl.
  - now left.
  - destruct (IH (if Qltb (snd first) (snd item) then item else first))
      as [H | H].
    + destruct (Qltb (snd first) (snd item)); rewrite <- H; auto.
    + auto.
Qed.

Lemma category_scores_keys (file_ext text : string) :
  map fst (category_scores_of file_ext text) = map fst keyword_patterns.
Proof.
  unfold category_scores_of. rewrite map_map. reflexivity.
Qed.

(** The classifier raises no [KeyError]: the arg-max item is a key of the
    pattern table, and the result is one of the two non-default shapes. *)
Lemma enhanced_auto_detect_category_total (filename file_extension title : string) :
  exists r,
    enhanced_auto_detect_category filename file_extension title = Some r
    /\ ((method r = file_extension_fallback /\ confidence r = 0.85)
        \/ (method r = enhanced_keyword_analysis
            /\ exists c, 0.3 <= c /\ confidence r = py_min (c + 0.05) 0.98
                         /\ In (category r, c) (all_scores r))).
Proof.
  unfold enhanced_auto_detect_category, select_result.
  set (file_ext := Str.lstrip_dot (Str.lower file_extension)).
  set (text := text_to_analyze filename title).
  destruct (py_max_by_score (category_scores_of file_ext text))
    as [best |] eqn:Emax.
  - destruct (Qltb (snd best) 0.3) eqn:Elow.
    + eexists. split; [reflexivity |]. left. now split.
    + apply py_max_by_score_In in Emax.
      assert (K : In (fst best) (map fst keyword_patterns)).
      { rewrite <- (category_scores_keys file_ext text). now apply in_map. }
      destruct (dict_get_key _ _ K) as [pattern Ep]. rewrite Ep.
      eexists. split; [reflexivity |]. right. split; [reflexivity |].
      exists (snd best). simpl. repeat split.
      * now apply Qltb_false.
      * now destruct best.
  - discriminate Emax.
Qed.

Lemma keyword_loop_no_match (text : string) (kws : list string) (acc : nat * Q) :
  forallb (fun kw => negb (Str.contains kw text)) kws = true ->
  fold_left (match_keyword text) kws acc = acc.
Proof.
  revert acc. induction kws as [| kw kws IH]; intros acc; simpl; [reflexivity |].
  rewrite andb_true_iff, negb_true_iff. intros [Hkw Hrest].
  unfold match_keyword at 2. rewrite Hkw. now apply IH.
Qed.

Lemma category_score_no_keywords (file_ext text cid : string) (pd : Pattern) :
  forallb (fun kw => negb (Str.contains kw text)) (keywords pd) = true ->
  category_score file_ext text cid pd
  = if Str.mem file_ext (pattern_file_types pd) then 0.40 else 0.0.
Proof.
  intros H. unfold category_score. rewrite (keyword_loop_no_match _ _ _ H).
  simpl. now destruct (Str.mem file_ext (pattern_file_types pd)).
Qed.

Lemma category_scores_no_keywords (file_ext text : string) :
  no_keywords text = true ->
  category_scores_of file_ext text
  = map (fun entry => (fst entry, if accepts file_ext entry then 0.40 else 0.0))
        keyword_patterns.
Proof.
  unfold no_keywords, category_scores_of. rewrite forallb_forall. intros H.
  apply map_ext_in. intros entry Hin.
  now rewrite (category_score_no_keywords _ _ _ _ (H entry Hin)).
Qed.

Section ArgMaxTwoLevels.
Context {A : Type} (p : string * A -> bool) (lo hi : Q) (Hlt : lo < hi).

Local Abbreviation level :=
  (fun entry : string * A => (fst entry, if p entry then hi else lo)).
Local Abbreviation step :=
  (fun best item : string * Q =>
     if Qltb (snd best) (snd item) then item else best).

Lemma argmax_keeps_hi (rest : list (string * A)) (k : string) :
  fold_left step (map level rest) (k, hi) = (k, hi).
Proof.
  induction rest as [| entry rest IH]; simpl; [reflexivity |].
  replace (Qltb hi (if p entry then hi else lo)) with false; [exact IH |].
  symmetry. apply Qltb_false. destruct (p entry); lra.
Qed.

Lemma argmax_from_lo (rest : list (string * A)) (k : string) :
  fold_left step (map level rest) (k, lo)
  = match find p rest with
    | Some entry => (fst entry, hi)
    | None => (k, lo)
    end.
Proof.
  induction rest as [| entry rest IH]; simpl; [reflexivity |].
  destruct (p entry).
  - replace (Qltb lo hi) with true by (symmetry; now apply Qltb_true).
    apply argmax_keeps_hi.
  - replace (Qltb lo lo) with false by (symmetry; apply Qltb_false; lra).
    exact IH.
Qed.

Lemma py_max_two_levels (entries : list (string * A)) :
  py_max_by_score (map level entries)
  = match find p entries with
    | Some entry => Some (fst entry, hi)
    | None => match entries with
              | [] => None
              | first :: _ => Some (fst first, lo)
              end
    end.
Proof.
  destruct entries as [| first rest]; [reflexivity |].
  unfold py_max_by_score. simpl.
  destruct (p first).
  - f_equal. apply argmax_keeps_hi.
  - rewrite argmax_from_lo. now destruct (find p rest).
Qed.

End ArgMaxTwoLevels.

Lemma find_none_forallb {A : Type} (p : A -> bool) (l : list A) :
  forallb (fun x => negb (p x)) l = true -> find p l = None.
Proof.
  induction l as [| x l IH]; simpl; [reflexivity |].
  rewrite andb_true_iff, negb_true_iff. intros [-> H]. now apply IH.
Qed.

(** ** Claims about the classifier *)

(** C6. The screenplay scenario: file name "my_screenplay_draft.pdf",
    extension "pdf", title "Act One Dialogue". The keywords "screenplay",
    "dialogue" and "act" are detected, the extension is one of the
    screenplay pattern's, the category is "screenplay", the confidence is at
    least 0.3 (it is the cap 0.98), and the method is the keyword analysis. *)
Theorem screenplay_scenario :
  exists r,
    enhanced_auto_detect_category "my_screenplay_draft.pdf" "pdf" "Act One Dialogue"
    = Some r
    /\ category r = "screenplay"
    /\ detected_keywords r = ["screenplay"; "dialogue"; "act"]
    /\ accepts "pdf" ("screenplay",
                      match dict_get "screenplay" keyword_patterns with
                      | Some p => p
                      | None => Build_Pattern [] [] 0
                      end) = true
    /\ 0.3 <= confidence r
    /\ confidence r = 0.98
    /\ method r = enhanced_keyword_analysis.
Proof.
  eexists. split; [vm_compute; reflexivity |].
  simpl. repeat split; try reflexivity. discriminate.
Qed.

(** C2, as stated, fails: for "clip.xyz" the classifier does not answer with
    confidence 0.75 and method default_fallback. *)
Lemma clip_xyz_not_default_fallback :
  ~ exists r,
      enhanced_auto_detect_category "clip.xyz" "xyz" "" = Some r
      /\ category r = "digital_art"
      /\ confidence r == 0.75
      /\ method r = default_fallback.
Proof.
  intros [r [E [_ [_ Hm]]]]. vm_compute in E. injection E as <-. discriminate Hm.
Qed.

(** C2, amended. A file whose text holds no keyword and whose extension no
    pattern and no category lists is classified as "digital_art" with
    confidence 0.85 by the file-extension fallback. The default_fallback
    answer ("digital_art", 0.75) is what an empty score dictionary gives, and
    the classifier never gives it, its pattern table being non-empty. *)
Theorem unknown_extension_falls_back_to_extension_lookup :
  (forall filename file_extension title,
      no_keywords (text_to_analyze filename title) = true ->
      unknown_extension (Str.lstrip_dot (Str.lower file_extension)) = true ->
      exists r,
        enhanced_auto_detect_category filename file_extension title = Some r
        /\ category r = "digital_art"
        /\ confidence r = 0.85
        /\ method r = file_extension_fallback
        /\ detected_keywords r = [])
  /\ (forall file_extension text,
         select_result file_extension text []
         = Some {| category := "digital_art"; confidence := 0.75;
                   method := default_fallback; detected_keywords := [];
                   all_scores := [] |})
  /\ (forall filename file_extension title r,
         enhanced_auto_detect_category filename file_extension title = Some r ->
         method r <> default_fallback).
Proof.
  split; [| split].
  - intros filename file_extension title Hkw Hext.
    unfold unknown_extension in Hext. apply andb_true_iff in Hext as [Hpat Hcat].
    unfold enhanced_auto_detect_category.
    rewrite (category_scores_no_keywords _ _ Hkw).
    unfold select_result.
    rewrite (py_max_two_levels (accepts _) 0.0 0.40) by reflexivity.
    rewrite (find_none_forallb _ _ Hpat).
    unfold keyword_patterns at 1.
    cbn [snd fst]. replace (Qltb 0.0 0.3) with true by reflexivity.
    eexists. split; [reflexivity |]. cbn [category confidence method detected_keywords].
    repeat split. unfold get_category_by_file_extension.
    now rewrite (find_none_forallb _ _ Hcat).
  - reflexivity.
  - intros filename file_extension title r E.
    destruct (enhanced_auto_detect_category_total filename file_extension title)
      as [r' [E' [[Hm _] | [Hm _]]]];
      rewrite E in E'; injection E' as <-; rewrite Hm; discriminate.
Qed.

(** ** The allocator *)

Lemma get_category_tokenization_structure_total (c : string) :
  exists s,
    get_category_tokenization_structure c = Some s
    /\ In s all_structures
    /\ (dict_get c CONTENT_CATEGORIES = None -> s = digital_art_structure)
    /\ (forall cat, dict_get c CONTENT_CATEGORIES = Some cat ->
                    s = tokenization_structure cat).
Proof.
  unfold get_category_tokenization_structure, dict_mem.
  destruct (dict_get c CONTENT_CATEGORIES) as [cat |] eqn:E.
  - cbn [negb]. rewrite E. exists (tokenization_structure cat).
    repeat split; try discriminate.
    + apply dict_get_In in E. unfold all_structures.
      now apply (in_map (fun entry => tokenization_structure (snd entry))) in E.
    + now intros ? [= ->].
  - exists digital_art_structure. repeat split; try discriminate.
    unfold all_structures. apply in_map_iff.
    exists ("digital_art",
            match dict_get "digital_art" CONTENT_CATEGORIES with
            | Some cat => cat
            | None => Build_Category "" "" [] []
            end).
    split; [reflexivity |]. apply dict_get_In. reflexivity.
Qed.

Lemma specialized_entries_for (self : SpecializedTokenizer) (s : Structure)
    (factor : Q) (vm : string -> Q) :
  Forall2 (entry_for self factor) s (specialized_entries self s factor vm).
Proof.
  unfold specialized_entries.
  induction s as [| item s IH]; simpl; constructor; [| exact IH].
  unfold entry_for. simpl. repeat split. now exists (vm (fst item)).
Qed.

Lemma generic_entries_for (self : SpecializedTokenizer) (s : Structure)
    (factor : Q) :
  Forall2 (entry_for self factor) s
          (map (fun item => (fst item, generic_entry self factor (snd item))) s).
Proof.
  induction s as [| item s IH]; simpl; constructor; [| exact IH].
  unfold entry_for. simpl. repeat split. exists 1. split.
  - apply py_round_comp. ring.
  - apply py_round_comp. ring.
Qed.

Ltac run_tokenizer name :=
  intros cid analysis w;
  destruct (get_category_tokenization_structure_total name) as [s [Es _]];
  exists s;
  unfold tokenize_film, tokenize_animation, tokenize_screenplay,
    tokenize_book_writing, tokenize_digital_art, tokenize_video_games,
    tokenize_generic, bind, lift_option, random_uniform,
    _create_base_tokenization, time_time, ret;
  rewrite Es; do 2 eexists;
  repeat (split; [reflexivity |]);
  first [apply specialized_entries_for | apply generic_entries_for].

Lemma tokenize_film_ok self : tokenizer_ok self "film" (tokenize_film self).
Proof. run_tokenizer "film". Qed.

Lemma tokenize_animation_ok self :
  tokenizer_ok self "animation" (tokenize_animation self).
Proof. run_tokenizer "animation". Qed.

Lemma tokenize_screenplay_ok self :
  tokenizer_ok self "screenplay" (tokenize_screenplay self).
Proof. run_tokenizer "screenplay". Qed.

Lemma tokenize_book_writing_ok self :
  tokenizer_ok self "book_writing" (tokenize_book_writing self).
Proof. run_tokenizer "book_writing". Qed.

Lemma tokenize_digital_art_ok self :
  tokenizer_ok self "digital_art" (tokenize_digital_art self).
Proof. run_tokenizer "digital_art". Qed.

Lemma tokenize_video_games_ok self :
  tokenizer_ok self "video_games" (tokenize_video_games self).
Proof. run_tokenizer "video_games". Qed.

Lemma tokenize_generic_ok self (c : string) :
  tokenizer_ok self c (fun cid analysis => tokenize_generic self cid analysis c).
Proof. run_tokenizer c. Qed.

(** Whatever the category string, the dispatch yields a tokenizer that
    returns a breakdown of the structure looked up for that string. *)
Lemma get_specialized_tokenizer_ok self (c : string) :
  tokenizer_ok self c (get_specialized_tokenizer self c).
Proof.
  unfold get_specialized_tokenizer, tokenizer_map. cbn [dict_get].
  repeat match goal with
         | |- context [String.eqb c ?k] =>
             destruct (String.eqb_spec c k) as [-> | _]
         end;
    auto using tokenize_film_ok, tokenize_animation_ok, tokenize_screenplay_ok,
      tokenize_book_writing_ok, tokenize_digital_art_ok, tokenize_video_games_ok,
      tokenize_generic_ok.
Qed.

Lemma create_specialized_tokenization_result (cid : string) (analysis : Analysis)
    (category file_extension : option string) (w : World) :
  exists s t w',
    get_category_tokenization_structure
      (effective_category category file_extension) = Some s
    /\ create_specialized_tokenization cid analysis category file_extension w
       = Some (t, w')
    /\ total_tokens t = 1000%Z
    /\ content_category t = effective_category category file_extension
    /\ Forall2 (entry_for SpecializedTokenizer_init (originality_factor_of analysis))
               s (token_categories t)
    /\ grand_total_value_usd t
       = Some (py_sum (map (fun cat => total_value_usd (snd cat))
                           (token_categories t))).
Proof.
  unfold create_specialized_tokenization.
  change (match category, file_extension with
          | Some (String c s), _ => String c s
          | _, Some (String c s) => get_category_by_file_extension (String c s)
          | _, _ => "digital_art"
          end) with (effective_category category file_extension).
  destruct (get_specialized_tokenizer_ok SpecializedTokenizer_init
              (effective_category category file_extension) cid analysis w)
    as (s & t & w' & Es & Et & Htot & _ & Hcat & Hentries).
  exists s. unfold bind. cbv zeta. rewrite Et. do 2 eexists.
  split; [exact Es |]. split; [reflexivity |]. simpl. now repeat split.
Qed.

Lemma all_structures_within :
  forallb (structure_within 1000) all_structures = true.
Proof. vm_compute. reflexivity. Qed.

Lemma structure_within_In (s : Structure) :
  In s all_structures -> structure_within 1000 s = true.
Proof.
  intros H. pose proof all_structures_within as A.
  rewrite forallb_forall in A. now apply A.
Qed.

Lemma entries_token_counts (self : SpecializedTokenizer) (factor : Q)
    (s : Structure) (tc : dict TokenEntry) :
  Forall2 (entry_for self factor) s tc ->
  map (fun cat => token_count (snd cat)) tc
  = map (fun item => int_div (self_total_tokens self * percentage (snd item)) 100) s.
Proof.
  induction 1 as [| item e s tc He _ IH]; simpl; [reflexivity |].
  destruct He as (_ & -> & _). now rewrite IH.
Qed.

Lemma entries_keys (self : SpecializedTokenizer) (factor : Q)
    (s : Structure) (tc : dict TokenEntry) :
  Forall2 (entry_for self factor) s tc -> map fst tc = map fst s.
Proof.
  induction 1 as [| item e s tc He _ IH]; simpl; [reflexivity |].
  destruct He as (-> & _). now rewrite IH.
Qed.

(** ** Claims about the allocator *)

(** C1. Whatever the category, the file extension, the analysis (hence the
    originality score) and the random draws, the allocation succeeds with a
    budget of 1000 tokens, every bucket holds floor(1000 * percentage / 100)
    tokens, and the token counts sum to at most the budget. *)
Theorem token_counts_within_budget :
  forall cid analysis category file_extension w,
  exists s t w',
    create_specialized_tokenization cid analysis category file_extension w
    = Some (t, w')
    /\ total_tokens t = 1000%Z
    /\ get_category_tokenization_structure
         (effective_category category file_extension) = Some s
    /\ token_counts t
       = map (fun item => (total_tokens t * percentage (snd item) / 100)%Z) s
    /\ (sum_Z (token_counts t) <= total_tokens t)%Z.
Proof.
  intros cid analysis category file_extension w.
  destruct (create_specialized_tokenization_result
              cid analysis category file_extension w)
    as (s & t & w' & Es & Et & Htot & _ & Hentries & _).
  exists s, t, w'. repeat split; try assumption.
  - unfold token_counts. rewrite (entries_token_counts _ _ _ _ Hentries).
    rewrite Htot. apply map_ext_in. intros item Hin.
    destruct (get_category_tokenization_structure_total
                (effective_category category file_extension))
      as (s' & Es' & Hin' & _).
    rewrite Es in Es'. injection Es' as <-.
    apply structure_within_In in Hin'. unfold structure_within in Hin'.
    apply andb_true_iff in Hin' as [Hpos _]. rewrite forallb_forall in Hpos.
    specialize (Hpos item Hin). apply Z.leb_le in Hpos.
    unfold int_div. simpl self_total_tokens. apply Z.quot_div_nonneg; lia.
  - unfold token_counts. rewrite (entries_token_counts _ _ _ _ Hentries), Htot.
    destruct (get_category_tokenization_structure_total
                (effective_category category file_extension))
      as (s' & Es' & Hin' & _).
    rewrite Es in Es'. injection Es' as <-.
    apply structure_within_In in Hin'. unfold structure_within in Hin'.
    apply andb_true_iff in Hin' as [_ Hsum]. now apply Z.leb_le in Hsum.
Qed.

(** C7. The classifier always answers, with a confidence between 0 and 0.98;
    the allocator always answers, and every token count is an integer that
    is not negative. *)
Theorem confidence_and_token_count_ranges :
  (forall filename file_extension title,
    exists r,
      enhanced_auto_detect_category filename file_extension title = Some r
      /\ 0 <= confidence r /\ confidence r <= 0.98)
  /\ (forall cid analysis category file_extension w,
       exists t w',
         create_specialized_tokenization cid analysis category file_extension w
         = Some (t, w')
         /\ Forall (fun n : Z => (0 <= n)%Z) (token_counts t)).
Proof.
  split.
  - intros filename file_extension title.
    destruct (enhanced_auto_detect_category_total filename file_extension title)
      as [r [E [[_ Hc] | [_ [c [Hlow [Hc _]]]]]]];
      exists r; (split; [exact E |]); rewrite Hc.
    + split; [discriminate | discriminate].
    + split; [| apply py_min_le_r].
      apply py_min_ge; [lra | discriminate].
  - intros cid analysis category file_extension w.
    destruct (create_specialized_tokenization_result
                cid analysis category file_extension w)
      as (s & t & w' & Es & Et & _ & _ & Hentries & _).
    exists t, w'. split; [exact Et |].
    unfold token_counts. rewrite (entries_token_counts _ _ _ _ Hentries).
    destruct (get_category_tokenization_structure_total
                (effective_category category file_extension))
      as (s' & Es' & Hin' & _).
    rewrite Es in Es'. injection Es' as <-.
    apply structure_within_In in Hin'. unfold structure_within in Hin'.
    apply andb_true_iff in Hin' as [Hpos _]. rewrite forallb_forall in Hpos.
    apply Forall_forall. intros n Hn. apply in_map_iff in Hn as [item [<- Hin]].
    specialize (Hpos item Hin). apply Z.leb_le in Hpos.
    unfold int_div. simpl self_total_tokens. apply Z.quot_pos; lia.
Qed.

Lemma entry_for_zero_factor (self : SpecializedTokenizer) (factor : Q)
    (item : string * RightsBucket) (e : string * TokenEntry) :
  factor == 0 -> entry_for self factor item e ->
  token_value_usd (snd e) = 0 /\ total_value_usd (snd e) = 0.
Proof.
  intros Hz (_ & _ & _ & _ & _ & vm & -> & ->).
  split; apply py_round_zero; rewrite Hz; ring.
Qed.

Lemma py_sum_zero (xs : list Q) : Forall (fun x => x = 0) xs -> py_sum xs == 0.
Proof.
  unfold py_sum. generalize 0 at 2 3 as acc.
  induction xs as [| x xs IH]; intros acc H; simpl; [reflexivity |].
  inversion H as [| ? ? -> Hrest]; subst.
  rewrite (IH _ Hrest). ring.
Qed.

Lemma all_structures_nonempty :
  Forall (fun s : Structure => s <> []) all_structures.
Proof. repeat constructor; discriminate. Qed.

(** C5. With an originality score of 0, whatever the category, the file
    extension and the world the quality factors are drawn from, the
    allocation holds one bucket for each bucket of the category's rights
    structure, which is not empty, and every one of them has unit value 0
    and total value 0; so has the whole allocation. *)
Theorem zero_originality_zeroes_values :
  forall cid analysis category file_extension w score,
    dict_get "originality_score" analysis = Some score ->
    score == 0 ->
    exists s t w' total,
      create_specialized_tokenization cid analysis category file_extension w
      = Some (t, w')
      /\ get_category_tokenization_structure
           (effective_category category file_extension) = Some s
      /\ s <> []
      /\ map fst (token_categories t) = map fst s
      /\ Forall (fun cat => token_value_usd (snd cat) = 0
                            /\ total_value_usd (snd cat) = 0)
                (token_categories t)
      /\ grand_total_value_usd t = Some total
      /\ total == 0.
Proof.
  intros cid analysis category file_extension w score Hget Hscore.
  destruct (create_specialized_tokenization_result
              cid analysis category file_extension w)
    as (s & t & w' & Es & Et & _ & _ & Hentries & Htotal).
  assert (Hz : originality_factor_of analysis == 0).
  { unfold originality_factor_of. rewrite Hget, Hscore. reflexivity. }
  assert (Hall : Forall (fun cat => token_value_usd (snd cat) = 0
                                    /\ total_value_usd (snd cat) = 0)
                        (token_categories t)).
  { clear Htotal Et Es. induction Hentries as [| item e s tc He _ IH];
      constructor; [| exact IH].
    exact (entry_for_zero_factor _ _ _ _ Hz He). }
  assert (Hne : s <> []).
  { destruct (get_category_tokenization_structure_total
                (effective_category category file_extension))
      as (s' & Es' & Hin & _).
    rewrite Es in Es'. injection Es' as <-.
    pose proof all_structures_nonempty as A. rewrite Forall_forall in A.
    exact (A s Hin). }
  exists s, t, w'. eexists.
  split; [exact Et |]. split; [exact Es |]. split; [exact Hne |].
  split; [exact (entries_keys _ _ _ _ Hentries) |].
  split; [exact Hall |]. split; [exact Htotal |].
  apply py_sum_zero. apply Forall_map.
  eapply Forall_impl; [| exact Hall]. now intros cat [_ H].
Qed.

(** C5 at a film allocation with originality score 0. *)
Lemma zero_originality_witness :
  exists s t w' total,
    create_specialized_tokenization "id1" [("originality_score", 0)]
      (Some "film") None (constant_world (1 # 2)) = Some (t, w')
    /\ get_category_tokenization_structure
         (effective_category (Some "film") None) = Some s
    /\ s <> []
    /\ map fst (token_categories t) = map fst s
    /\ Forall (fun cat => token_value_usd (snd cat) = 0
                          /\ total_value_usd (snd cat) = 0)
              (token_categories t)
    /\ grand_total_value_usd t = Some total
    /\ total == 0.
Proof.
  apply (zero_originality_zeroes_values "id1" [("originality_score", 0)]
           (Some "film") None (constant_world (1 # 2)) 0);
    reflexivity.
Defined.

(** C4. A category string that is no key of the category table raises no
    error: the lookup substitutes the rights structure of "digital_art", the
    tokenizer dispatch answers with one entry per bucket of that structure,
    and so does the whole allocation, with its total value. *)
Theorem unknown_category_uses_default_structure :
  forall cid analysis category w,
    dict_get category CONTENT_CATEGORIES = None ->
    get_category_tokenization_structure category = Some digital_art_structure
    /\ (exists t w',
          get_specialized_tokenizer SpecializedTokenizer_init category
            cid analysis w = Some (t, w')
          /\ map fst (token_categories t) = map fst digital_art_structure
          /\ Forall2 (entry_for SpecializedTokenizer_init
                                (originality_factor_of analysis))
                     digital_art_structure (token_categories t))
    /\ (exists t w' total,
          create_specialized_tokenization cid analysis (Some category) None w
          = Some (t, w')
          /\ map fst (token_categories t) = map fst digital_art_structure
          /\ Forall2 (entry_for SpecializedTokenizer_init
                                (originality_factor_of analysis))
                     digital_art_structure (token_categories t)
          /\ total_tokens t = 1000%Z
          /\ grand_total_value_usd t = Some total).
Proof.
  intros cid analysis category w Hunknown.
  destruct (get_category_tokenization_structure_total category)
    as (s & Es & _ & Hdef & _).
  specialize (Hdef Hunknown). subst s.
  split; [exact Es |]. split.
  - destruct (get_specialized_tokenizer_ok SpecializedTokenizer_init
                category cid analysis w)
      as (s & t & w' & Es' & Et & _ & _ & _ & Hentries).
    rewrite Es in Es'. injection Es' as <-.
    exists t, w'. split; [exact Et |]. split; [| exact Hentries].
    exact (entries_keys _ _ _ _ Hentries).
  - destruct (create_specialized_tokenization_result
                cid analysis (Some category) None w)
      as (s & t & w' & Es' & Et & Htot & _ & Hentries & Htotal).
    assert (Hs : s = digital_art_structure).
    { destruct category as [| c rest]; simpl in Es'.
      - vm_compute in Es'. now injection Es' as <-.
      - rewrite Es in Es'. now injection Es' as <-. }
    subst s. exists t, w'. eexists.
    split; [exact Et |]. split; [exact (entries_keys _ _ _ _ Hentries) |].
    split; [exact Hentries |]. split; [exact Htot | exact Htotal].
Qed.

(** C4 at the unlisted category "music". *)
Lemma unknown_category_witness :
  dict_get "music" CONTENT_CATEGORIES = None
  /\ get_category_tokenization_structure "music" = Some digital_art_structure
  /\ exists t w' total,
       create_specialized_tokenization "id1" [] (Some "music") None
         (constant_world (1 # 2)) = Some (t, w')
       /\ map fst (token_categories t) = map fst digital_art_structure
       /\ Forall2 (entry_for SpecializedTokenizer_init (originality_factor_of []))
                  digital_art_structure (token_categories t)
       /\ total_tokens t = 1000%Z
       /\ grand_total_value_usd t = Some total.
Proof.
  split; [reflexivity |].
  pose proof (unknown_category_uses_default_structure
                "id1" [] "music" (constant_world (1 # 2)) eq_refl) as H.
  split; [exact (proj1 H) | exact (proj2 (proj2 H))].
Defined.

(** C8, as stated, fails: when the technical-innovation factor drawn is
    0.601, the cinematography bucket stores the unit value 32.45, not
    60.0 * 0.9 * 0.601 = 32.454. *)
Lemma film_unit_value_is_rounded :
  exists t w' e,
    create_specialized_tokenization "id1" [("originality_score", 90)]
      (Some "film") None (constant_world (1 # 300)) = Some (t, w')
    /\ dict_get "cinematography_rights" (token_categories t) = Some e
    /\ film_technical_innovation (constant_world (1 # 300)) == 0.601
    /\ token_value_usd e == 32.45
    /\ ~ token_value_usd e
         == 60.0 * 0.9 * film_technical_innovation (constant_world (1 # 300)).
Proof.
  do 3 eexists. split; [vm_compute; reflexivity |].
  split; [vm_compute; reflexivity |].
  split; [reflexivity |]. split; [reflexivity |]. discriminate.
Qed.

(** C8, amended. For content "id1" of category "film" with originality
    score 90, in every world, the cinematography bucket holds
    floor(1000 * 25 / 100) = 250 tokens and its unit value is
    60.0 * 0.9 * technical_innovation rounded to two decimal places, where
    technical_innovation is the third factor drawn. *)
Theorem film_cinematography_bucket :
  forall w,
  exists t w' e,
    create_specialized_tokenization "id1" [("originality_score", 90)]
      (Some "film") None w = Some (t, w')
    /\ total_tokens t = 1000%Z
    /\ dict_get "cinematography_rights" (token_categories t) = Some e
    /\ token_count e = (1000 * 25 / 100)%Z
    /\ token_count e = 250%Z
    /\ token_value_usd e
       = py_round (60.0 * 0.9 * film_technical_innovation w) 2
    /\ 60.0 * 0.9 * film_technical_innovation w - 0.005 <= token_value_usd e
    /\ token_value_usd e <= 60.0 * 0.9 * film_technical_innovation w + 0.005.
Proof.
  intros w. do 3 eexists.
  split; [reflexivity |]. split; [reflexivity |].
  split; [reflexivity |]. split; [reflexivity |]. split; [reflexivity |].
  cbn [token_value_usd snd].
  assert (E : py_round (60.0 * originality_factor_of [("originality_score", 90)]
                        * (1.0 * film_technical_innovation w)) 2
              = py_round (60.0 * 0.9 * film_technical_innovation w) 2).
  { apply py_round_comp. unfold originality_factor_of. cbn. field. }
  split; [exact E |].
  pose proof (py_round_2_near (60.0 * 0.9 * film_technical_innovation w)) as N.
  rewrite <- E in N. exact N.
Qed.

Lemma unlisted_allocated_as_digital_art (c : ascii) (rest : string) :
  dict_get (String c rest) CONTENT_CATEGORIES = None ->
  allocated_as_digital_art (String c rest).
Proof.
  intros Hunknown cid analysis file_extension w.
  destruct (create_specialized_tokenization_result
              cid analysis (Some (String c rest)) file_extension w)
    as (s & t & w' & Es & Et & _ & Hcat & Hentries & _).
  simpl effective_category in *.
  destruct (get_category_tokenization_structure_total (String c rest))
    as (s' & Es' & _ & Hdef & _).
  rewrite Es in Es'. injection Es' as <-. rewrite (Hdef Hunknown) in *.
  exists t, w'. split; [exact Et |]. split; [exact Hcat |].
  split; [exact (entries_keys _ _ _ _ Hentries) | exact Hentries].
Qed.

(** C10. The classifier proposes, by keyword analysis, the identifiers
    "music", "gaming" and "software" (for instance for "song.mp3",
    "game.exe" and "app.dmg"); none is a key of the category table, so every
    allocation made with one of them carries the buckets of "digital_art",
    which are not those of the matching specialised category. *)
Theorem classifier_ids_missing_from_category_table :
  (proposes_unlisted "song.mp3" "mp3" "music"
   /\ allocated_as_digital_art "music")
  /\ (proposes_unlisted "game.exe" "exe" "gaming"
      /\ allocated_as_digital_art "gaming")
  /\ (proposes_unlisted "app.dmg" "dmg" "software"
      /\ allocated_as_digital_art "software")
  /\ Forall (fun id =>
               exists s,
                 get_category_tokenization_structure id = Some s
                 /\ map fst s <> map fst digital_art_structure)
            ["music_composition"; "video_games"; "software_code"].
Proof.
  repeat split;
    try (eexists; split; [vm_compute; reflexivity |]; now repeat split);
    try (apply unlisted_allocated_as_digital_art; reflexivity).
  repeat constructor;
    (eexists; split; [vm_compute; reflexivity | discriminate]).
Qed.

(** C3, as stated, fails: "mp4" is a file type of the table's category
    "animation", the text "clip.mp4" holds no keyword, and yet the
    classifier does not answer "animation" (it answers "film"). *)
Lemma mp4_of_animation_classified_as_film :
  (exists c, dict_get "animation" CONTENT_CATEGORIES = Some c
             /\ In "mp4" (file_types c))
  /\ no_keywords (text_to_analyze "clip.mp4" "") = true
  /\ option_map category (enhanced_auto_detect_category "clip.mp4" "mp4" "")
     = Some "film"
  /\ ~ exists r,
         enhanced_auto_detect_category "clip.mp4" "mp4" "" = Some r
         /\ category r = "animation".
Proof.
  split; [eexists; split; [reflexivity | simpl; tauto] |].
  split; [reflexivity |]. split; [reflexivity |].
  intros [r [E Hc]]. vm_compute in E. injection E as <-. discriminate Hc.
Qed.

Lemma find_exists {A : Type} (p : A -> bool) (l : list A) (x : A) :
  In x l -> p x = true -> exists y, find p l = Some y.
Proof.
  induction l as [| a l IH]; simpl; [contradiction |].
  intros [-> | Hin] Hp.
  - rewrite Hp. now exists x.
  - destruct (p a); [now exists a | now apply IH].
Qed.

Lemma filter_none {A : Type} (p : A -> bool) (l : list A) :
  forallb (fun x => negb (p x)) l = true -> filter p l = [].
Proof.
  induction l as [| x l IH]; simpl; [reflexivity |].
  rewrite andb_true_iff, negb_true_iff. intros [-> H]. now apply IH.
Qed.

(** C3, amended. When the text holds no keyword and the normalised
    extension is a file type of the pattern category [P], the score of [P]
    is exactly 0.4, earned by the extension alone, and the classifier
    answers, by keyword analysis with confidence 0.45 and no detected
    keyword, the first category in pattern order that lists the extension:
    [P] itself when no earlier pattern lists it. *)
Theorem extension_match_without_keywords :
  forall filename file_extension title P pd,
    no_keywords (text_to_analyze filename title) = true ->
    In (P, pd) keyword_patterns ->
    Str.mem (Str.lstrip_dot (Str.lower file_extension)) (pattern_file_types pd)
    = true ->
    exists r first,
      enhanced_auto_detect_category filename file_extension title = Some r
      /\ In (P, 0.40) (all_scores r)
      /\ first_pattern_with_ext (Str.lstrip_dot (Str.lower file_extension))
         = Some first
      /\ category r = first
      /\ method r = enhanced_keyword_analysis
      /\ confidence r == 0.45
      /\ detected_keywords r = [].
Proof.
  intros filename file_extension title P pd Hkw Hin Hext.
  set (file_ext := Str.lstrip_dot (Str.lower file_extension)) in *.
  unfold enhanced_auto_detect_category. fold file_ext.
  rewrite (category_scores_no_keywords _ _ Hkw).
  unfold select_result, first_pattern_with_ext.
  rewrite (py_max_two_levels (accepts file_ext) 0.0 0.40) by reflexivity.
  destruct (find_exists (accepts file_ext) keyword_patterns (P, pd) Hin Hext)
    as [[first wp] Efind].
  rewrite Efind. cbn [fst snd option_map].
  replace (Qltb 0.40 0.3) with false by reflexivity.
  apply find_some in Efind as [Hfirst _].
  assert (K : In first (map fst keyword_patterns))
    by (now apply (in_map fst) in Hfirst).
  destruct (dict_get_key _ _ K) as [winning Ew]. rewrite Ew.
  do 2 eexists. split; [reflexivity |].
  cbn [all_scores category method confidence detected_keywords].
  split.
  { apply in_map_iff. exists (P, pd). split; [| exact Hin].
    unfold accepts. cbn [fst snd]. now rewrite Hext. }
  repeat (split; [reflexivity |]).
  apply filter_none. apply dict_get_In in Ew.
  unfold no_keywords in Hkw. rewrite forallb_forall in Hkw.
  exact (Hkw _ Ew).
Qed.

(** The amended C3 at "clip.mp4" with extension ".MP4" and the pattern
    category "animation". *)
Lemma extension_match_witness :
  exists r first,
    enhanced_auto_detect_category "clip.mp4" ".MP4" "" = Some r
    /\ In ("animation", 0.40) (all_scores r)
    /\ first_pattern_with_ext "mp4" = Some first
    /\ category r = first
    /\ method r = enhanced_keyword_analysis
    /\ confidence r == 0.45
    /\ detected_keywords r = [].
Proof.
  refine (extension_match_without_keywords "clip.mp4" ".MP4" "" "animation"
            (Build_Pattern
               ["animation"; "animated"; "cartoon"; "motion"; "frame"; "tween";
                "3d"; "2d"]
               ["mp4"; "mov"; "gif"; "avi"; "mkv"; "swf"] 0.19)
            eq_refl _ eq_refl).
  simpl. do 6 right. left. reflexivity.
Defined.

(** The amended C2 at "clip.xyz" with extension "xyz". *)
Lemma unknown_extension_witness :
  exists r,
    enhanced_auto_detect_category "clip.xyz" "xyz" "" = Some r
    /\ category r = "digital_art"
    /\ confidence r = 0.85
    /\ method r = file_extension_fallback
    /\ detected_keywords r = [].
Proof.
  exact (proj1 unknown_extension_falls_back_to_extension_lookup
           "clip.xyz" "xyz" "" eq_refl eq_refl).
Defined.

(** * Further properties of the code *)

(** ** Normalising extensions *)

Lemma lower_char_idem (c : ascii) :
  Str.lower_char (Str.lower_char c) = Str.lower_char c.
Proof.
  destruct c as [b0 b1 b2 b3 b4 b5 b6 b7].
  destruct b0, b1, b2, b3, b4, b5, b6, b7; reflexivity.
Qed.

Lemma lower_idem (s : string) : Str.lower (Str.lower s) = Str.lower s.
Proof.
  induction s as [| c s IH]; simpl; [reflexivity |].
  now rewrite lower_char_idem, IH.
Qed.

Lemma lstrip_dot_cons (c : ascii) (s : string) :
  Str.lstrip_dot (String c s)
  = if Ascii.eqb c "."%char then Str.lstrip_dot s else String c s.
Proof.
  destruct c as [b0 b1 b2 b3 b4 b5 b6 b7].
  destruct b0, b1, b2, b3, b4, b5, b6, b7; reflexivity.
Qed.

Lemma lower_char_dot (c : ascii) :
  Ascii.eqb (Str.lower_char c) "."%char = Ascii.eqb c "."%char.
Proof.
  destruct c as [b0 b1 b2 b3 b4 b5 b6 b7].
  destruct b0, b1, b2, b3, b4, b5, b6, b7; reflexivity.
Qed.

Lemma lower_lstrip_dot (s : string) :
  Str.lower (Str.lstrip_dot s) = Str.lstrip_dot (Str.lower s).
Proof.
  induction s as [| c s IH]; [reflexivity |].
  change (Str.lower (String c s))
    with (String (Str.lower_char c) (Str.lower s)).
  rewrite !lstrip_dot_cons, lower_char_dot.
  destruct (Ascii.eqb c "."%char); [exact IH | reflexivity].
Qed.

Lemma lstrip_dot_idem (s : string) :
  Str.lstrip_dot (Str.lstrip_dot s) = Str.lstrip_dot s.
Proof.
  induction s as [| c s IH]; [reflexivity |].
  rewrite lstrip_dot_cons. destruct (Ascii.eqb c "."%char) eqn:E; [exact IH |].
  now rewrite lstrip_dot_cons, E.
Qed.

Lemma normalize_extension_idem (e : string) :
  normalize_extension (normalize_extension e) = normalize_extension e.
Proof.
  unfold normalize_extension.
  now rewrite lower_lstrip_dot, lower_idem, lstrip_dot_idem.
Qed.

Lemma normalize_extension_lower (e : string) :
  normalize_extension (Str.lower e) = normalize_extension e.
Proof. unfold normalize_extension. now rewrite lower_idem. Qed.

Lemma normalize_extension_dot (e : string) :
  normalize_extension (String "."%char e) = normalize_extension e.
Proof. reflexivity. Qed.

Lemma get_category_by_file_extension_normalized (e : string) :
  get_category_by_file_extension e
  = match find (fun entry =>
                  Str.mem (normalize_extension e) (file_types (snd entry)))
               CONTENT_CATEGORIES with
    | Some entry => fst entry
    | None => "digital_art"
    end.
Proof.
  unfold get_category_by_file_extension, normalize_extension.
  now destruct (find _ CONTENT_CATEGORIES) as [[k c] |].
Qed.

(** ** The extension lookup and the validation *)

Lemma CONTENT_CATEGORIES_keys_NoDup : NoDup (map fst CONTENT_CATEGORIES).
Proof.
  repeat constructor; simpl; intros H;
    repeat (destruct H as [H | H]; [discriminate H |]); exact H.
Qed.

Lemma dict_get_of_In {V : Type} (d : dict V) (k : string) (v : V) :
  NoDup (map fst d) -> In (k, v) d -> dict_get k d = Some v.
Proof.
  induction d as [| [k' v'] d IH]; simpl; [contradiction |].
  intros Hnd [[= -> ->] | Hin].
  - now rewrite String.eqb_refl.
  - inversion Hnd as [| ? ? Hnotin Hnd']; subst.
    destruct (String.eqb_spec k k') as [-> | _].
    + exfalso. apply Hnotin. now apply (in_map fst) in Hin.
    + now apply IH.
Qed.

Lemma dict_get_map {V W : Type} (f : V -> W) (d : dict V) (k : string) :
  dict_get k (map (fun entry => (fst entry, f (snd entry))) d)
  = option_map f (dict_get k d).
Proof.
  induction d as [| [k' v'] d IH]; simpl; [reflexivity |].
  now destruct (String.eqb k k').
Qed.

Lemma find_none_existsb {A : Type} (p : A -> bool) (l : list A) :
  find p l = None -> existsb p l = false.
Proof.
  induction l as [| x l IH]; simpl; [reflexivity |].
  destruct (p x); [discriminate | exact IH].
Qed.

Lemma find_some_existsb {A : Type} (p : A -> bool) (l : list A) (x : A) :
  find p l = Some x -> existsb p l = true.
Proof.
  intros H. apply find_some in H as [Hin Hp].
  apply existsb_exists. now exists x.
Qed.

Lemma lookup_in_table :
  forall file_extension,
  exists cat,
    dict_get (get_category_by_file_extension file_extension) CONTENT_CATEGORIES
    = Some cat
    /\ ((listed_extension (normalize_extension file_extension) = true
         /\ Str.mem (normalize_extension file_extension) (file_types cat) = true)
        \/ (listed_extension (normalize_extension file_extension) = false
            /\ get_category_by_file_extension file_extension = "digital_art")).
Proof.
  intros e. rewrite get_category_by_file_extension_normalized.
  unfold listed_extension.
  destruct (find _ CONTENT_CATEGORIES) as [[k c] |] eqn:E.
  - exists c. rewrite (find_some_existsb _ _ _ E).
    apply find_some in E as [Hin Hp]. split.
    + apply dict_get_of_In; [exact CONTENT_CATEGORIES_keys_NoDup | exact Hin].
    + left. now split.
  - rewrite (find_none_existsb _ _ E). eexists. split; [reflexivity |].
    right. now split.
Qed.

(** X1. The extension lookup always answers with a key of the category
    table: either a category that lists the normalised extension, or, when
    no category lists it, the default "digital_art". *)
Theorem extension_lookup_returns_table_category :
  forall file_extension,
  exists cat,
    dict_get (get_category_by_file_extension file_extension) CONTENT_CATEGORIES
    = Some cat
    /\ ((listed_extension (normalize_extension file_extension) = true
         /\ Str.mem (normalize_extension file_extension) (file_types cat) = true)
        \/ (listed_extension (normalize_extension file_extension) = false
            /\ get_category_by_file_extension file_extension = "digital_art")).
Proof. exact lookup_in_table. Qed.

(** X2. The extension lookup ignores the letter case of the extension and
    any leading dots: an extension, its lower-case form, its dotted form
    and its normalised form all get the same category. *)
Theorem extension_lookup_ignores_case_and_dots :
  forall file_extension,
    get_category_by_file_extension (Str.lower file_extension)
    = get_category_by_file_extension file_extension
    /\ get_category_by_file_extension (String "."%char file_extension)
       = get_category_by_file_extension file_extension
    /\ get_category_by_file_extension (normalize_extension file_extension)
       = get_category_by_file_extension file_extension.
Proof.
  intros e. rewrite !get_category_by_file_extension_normalized.
  now rewrite normalize_extension_lower, normalize_extension_dot,
    normalize_extension_idem.
Qed.

Lemma validate_lookup (e : string) :
  validate_category_selection (get_category_by_file_extension e) e
  = listed_extension (normalize_extension e).
Proof.
  unfold validate_category_selection.
  fold (normalize_extension e).
  destruct (lookup_in_table e)
    as [cat [Eget [[Hl Hm] | [Hl Hd]]]]; rewrite Eget, Hl.
  - exact Hm.
  - rewrite Hd in Eget. vm_compute in Eget. injection Eget as <-.
    unfold listed_extension in Hl.
    destruct (Str.mem (normalize_extension e) _) eqn:Em; [| reflexivity].
    exfalso. rewrite <- not_true_iff_false in Hl. apply Hl.
    apply existsb_exists.
    exists ("digital_art",
            match dict_get "digital_art" CONTENT_CATEGORIES with
            | Some c => c
            | None => Build_Category "" "" [] []
            end).
    split; [apply dict_get_In; reflexivity | exact Em].
Qed.

(** X3. The category the extension lookup proposes passes
    [validate_category_selection] for that extension exactly when some
    category of the table lists the extension; for an unlisted extension the
    proposed default "digital_art" fails its own validation. *)
Theorem lookup_validates_iff_listed :
  forall file_extension,
    validate_category_selection
      (get_category_by_file_extension file_extension) file_extension
    = listed_extension (normalize_extension file_extension).
Proof. exact validate_lookup. Qed.

(** X4. A category string that passes validation for an extension is a key
    of the table, and the extension is then a listed one, so the lookup's
    own proposal for it passes validation too. *)
Theorem validated_selection_is_listed :
  forall category_id file_extension,
    validate_category_selection category_id file_extension = true ->
    dict_mem category_id CONTENT_CATEGORIES = true
    /\ listed_extension (normalize_extension file_extension) = true
    /\ validate_category_selection
         (get_category_by_file_extension file_extension) file_extension = true.
Proof.
  intros c e H. unfold validate_category_selection, dict_mem in *.
  fold (normalize_extension e) in *.
  destruct (dict_get c CONTENT_CATEGORIES) as [cat |] eqn:E; [| discriminate].
  assert (L : listed_extension (normalize_extension e) = true).
  { unfold listed_extension. apply existsb_exists. exists (c, cat).
    split; [now apply dict_get_In | exact H]. }
  split; [reflexivity |]. split; [exact L |].
  pose proof (validate_lookup e) as V.
  unfold validate_category_selection in V. fold (normalize_extension e) in V.
  now rewrite V.
Qed.

(** X4 at the category "film" and the extension ".MP4". *)
Lemma validated_selection_witness :
  dict_mem "film" CONTENT_CATEGORIES = true
  /\ listed_extension (normalize_extension ".MP4") = true
  /\ validate_category_selection
       (get_category_by_file_extension ".MP4") ".MP4" = true.
Proof.
  apply (validated_selection_is_listed "film" ".MP4"). reflexivity.
Defined.

(** ** More on the classifier *)

Lemma keyword_weight_nonneg (keyword : string) :
  0 <= 0.1 + inject_Z (Z.of_nat (String.length keyword)) * 0.01.
Proof.
  assert (H : 0 <= inject_Z (Z.of_nat (String.length keyword))).
  { change 0 with (inject_Z 0). rewrite <- Zle_Qle. lia. }
  assert (G : 0 <= inject_Z (Z.of_nat (String.length keyword)) * 0.01).
  { apply Qmult_le_0_compat; [exact H | discriminate]. }
  lra.
Qed.

Lemma keyword_loop_grows (text : string) (kws : list string) (acc : nat * Q) :
  snd acc <= snd (fold_left (match_keyword text) kws acc).
Proof.
  revert acc. induction kws as [| kw kws IH]; intros acc; simpl.
  - apply Qle_refl.
  - eapply Qle_trans; [| apply IH].
    unfold match_keyword. destruct (Str.contains kw text); simpl.
    + pose proof (keyword_weight_nonneg kw). lra.
    + apply Qle_refl.
Qed.

Lemma matches_bonus_nonneg (n : nat) :
  0 <= py_min (inject_Z (Z.of_nat n) * 0.05) 0.2.
Proof.
  apply py_min_ge; [| discriminate].
  apply Qmult_le_0_compat; [| discriminate].
  change 0 with (inject_Z 0). rewrite <- Zle_Qle. lia.
Qed.

Lemma keyword_patterns_boost_nonneg (cid : string) (pd : Pattern) :
  In (cid, pd) keyword_patterns -> 0 <= confidence_boost pd.
Proof.
  intros H.
  assert (A : forallb (fun entry => Qle_bool 0 (confidence_boost (snd entry)))
                      keyword_patterns = true) by reflexivity.
  rewrite forallb_forall in A. apply Qle_bool_iff. exact (A _ H).
Qed.

Lemma category_score_bounds (file_ext text cid : string) (pd : Pattern) :
  0 <= confidence_boost pd ->
  0 <= category_score file_ext text cid pd
  /\ category_score file_ext text cid pd <= 1.
Proof.
  intros Hb. unfold category_score.
  split; [| eapply Qle_trans; [apply py_min_le_r | discriminate]].
  apply py_min_ge; [| discriminate].
  set (start := if Str.mem file_ext (pattern_file_types pd)
                then 0.0 + 0.4 else 0.0).
  pose proof (keyword_loop_grows text (keywords pd) (0%nat, start)) as G.
  simpl snd in G at 1.
  set (acc := fold_left (match_keyword text) (keywords pd) (0%nat, start)) in *.
  assert (S0 : 0 <= start)
    by (unfold start; destruct (Str.mem _ _); discriminate).
  pose proof (matches_bonus_nonneg (fst acc)) as B.
  destruct (0 <? fst acc)%nat; simpl andb.
  - destruct (negb _); [destruct (strong_contradiction _ _) |]; lra.
  - cbv beta iota. lra.
Qed.

Lemma category_score_listed (file_ext text cid : string) (pd : Pattern) :
  0 <= confidence_boost pd ->
  Str.mem file_ext (pattern_file_types pd) = true ->
  0.4 <= category_score file_ext text cid pd.
Proof.
  intros Hb Hm. unfold category_score. rewrite Hm. simpl negb.
  rewrite andb_false_r.
  apply py_min_ge; [| discriminate].
  pose proof (keyword_loop_grows text (keywords pd) (0%nat, 0.0 + 0.4)) as G.
  simpl snd in G at 1.
  set (acc := fold_left (match_keyword text) (keywords pd) (0%nat, 0.0 + 0.4))
    in *.
  assert (S0 : 0.4 <= 0.0 + 0.4) by discriminate.
  pose proof (matches_bonus_nonneg (fst acc)) as B.
  destruct (0 <? fst acc)%nat; lra.
Qed.

(** The arg-max keeps the first item of greatest score: every earlier item
    scores strictly less, every later one at most as much. *)
Lemma argmax_fold (rest pre l1 l2 : dict Q) (best : string * Q) :
  pre = (l1 ++ best :: l2)%list ->
  Forall (fun item => snd item < snd best) l1 ->
  Forall (fun item => snd item <= snd best) l2 ->
  let winner :=
    fold_left (fun b item => if Qltb (snd b) (snd item) then item else b)
              rest best in
  exists l1' l2',
    (pre ++ rest = l1' ++ winner :: l2')%list
    /\ Forall (fun item => snd item < snd winner) l1'
    /\ Forall (fun item => snd item <= snd winner) l2'.
Proof.
  revert pre l1 l2 best.
  induction rest as [| item rest IH]; intros pre l1 l2 best Hpre H1 H2; simpl.
  - exists l1, l2. rewrite app_nil_r. now repeat split.
  - destruct (Qltb (snd best) (snd item)) eqn:E.
    + apply Qltb_true in E.
      destruct (IH (pre ++ [item])%list pre [] item) as (l1' & l2' & Hp & Ha & Hb).
      * reflexivity.
      * subst pre. apply Forall_app. split.
        -- eapply Forall_impl; [| exact H1]. intros a Ha. cbv beta in *. lra.
        -- constructor; [exact E |].
           eapply Forall_impl; [| exact H2]. intros a Ha. cbv beta in *. lra.
      * constructor.
      * exists l1', l2'. rewrite <- app_assoc in Hp. now repeat split.
    + apply Qltb_false in E.
      destruct (IH (pre ++ [item])%list l1 (l2 ++ [item])%list best)
        as (l1' & l2' & Hp & Ha & Hb).
      * subst pre. now rewrite <- app_assoc.
      * exact H1.
      * apply Forall_app. split; [exact H2 | now constructor].
      * exists l1', l2'. rewrite <- app_assoc in Hp. now repeat split.
Qed.

Lemma py_max_by_score_first_greatest (items : dict Q) (best : string * Q) :
  py_max_by_score items = Some best ->
  exists l1 l2,
    items = (l1 ++ best :: l2)%list
    /\ Forall (fun item => snd item < snd best) l1
    /\ Forall (fun item => snd item <= snd best) l2.
Proof.
  destruct items as [| first rest]; simpl; [discriminate |].
  intros [= <-].
  destruct (argmax_fold rest [first] [] [] first eq_refl
              (Forall_nil _) (Forall_nil _)) as (l1 & l2 & Hp & Ha & Hb).
  exists l1, l2. now repeat split.
Qed.

(** What [select_result] returns on the scores of the pattern table. *)
Lemma select_result_cases (file_extension text : string) (scores : dict Q) :
  map fst scores = map fst keyword_patterns ->
  exists r best l1 l2,
    select_result file_extension text scores = Some r
    /\ all_scores r = scores
    /\ scores = (l1 ++ best :: l2)%list
    /\ Forall (fun item => snd item < snd best) l1
    /\ Forall (fun item => snd item <= snd best) l2
    /\ ((snd best < 0.3
         /\ method r = file_extension_fallback
         /\ category r = get_category_by_file_extension file_extension
         /\ confidence r = 0.85
         /\ detected_keywords r = [])
        \/ (0.3 <= snd best
            /\ method r = enhanced_keyword_analysis
            /\ category r = fst best
            /\ confidence r = py_min (snd best + 0.05) 0.98
            /\ exists pd,
                dict_get (fst best) keyword_patterns = Some pd
                /\ detected_keywords r
                   = filter (fun kw => Str.contains kw text) (keywords pd))).
Proof.
  intros Hkeys. unfold select_result.
  destruct (py_max_by_score scores) as [best |] eqn:Emax.
  - destruct (py_max_by_score_first_greatest _ _ Emax) as (l1 & l2 & Hs & H1 & H2).
    destruct (Qltb (snd best) 0.3) eqn:Elow.
    + apply Qltb_true in Elow. do 4 eexists.
      split; [reflexivity |]. split; [reflexivity |]. split; [exact Hs |].
      split; [exact H1 |]. split; [exact H2 |]. left. now repeat split.
    + apply Qltb_false in Elow.
      assert (K : In (fst best) (map fst keyword_patterns)).
      { rewrite <- Hkeys. apply in_map. rewrite Hs. apply in_elt. }
      destruct (dict_get_key _ _ K) as [pd Ep]. rewrite Ep.
      do 4 eexists.
      split; [reflexivity |]. split; [reflexivity |]. split; [exact Hs |].
      split; [exact H1 |]. split; [exact H2 |]. right.
      repeat (split; [first [exact Elow | reflexivity] |]).
      exists pd. now split.
  - destruct scores; [| discriminate Emax].
    symmetry in Hkeys. discriminate Hkeys.
Qed.

Lemma detect_cases (filename file_extension title : string) :
  exists r best l1 l2,
    enhanced_auto_detect_category filename file_extension title = Some r
    /\ all_scores r
       = category_scores_of (normalize_extension file_extension)
                            (text_to_analyze filename title)
    /\ all_scores r = (l1 ++ best :: l2)%list
    /\ Forall (fun item => snd item < snd best) l1
    /\ Forall (fun item => snd item <= snd best) l2
    /\ ((snd best < 0.3
         /\ method r = file_extension_fallback
         /\ category r = get_category_by_file_extension file_extension
         /\ confidence r = 0.85
         /\ detected_keywords r = [])
        \/ (0.3 <= snd best
            /\ method r = enhanced_keyword_analysis
            /\ category r = fst best
            /\ confidence r = py_min (snd best + 0.05) 0.98
            /\ exists pd,
                dict_get (fst best) keyword_patterns = Some pd
                /\ detected_keywords r
                   = filter (fun kw => Str.contains kw
                                         (text_to_analyze filename title))
                            (keywords pd))).
Proof.
  unfold enhanced_auto_detect_category. fold (normalize_extension file_extension).
  destruct (select_result_cases file_extension
              (text_to_analyze filename title)
              (category_scores_of (normalize_extension file_extension)
                                  (text_to_analyze filename title))
              (category_scores_keys _ _))
    as (r & best & l1 & l2 & E & Ha & Hs & H1 & H2 & Hc).
  exists r, best, l1, l2. rewrite Ha.
  split; [exact E |]. split; [reflexivity |]. split; [exact Hs |].
  split; [exact H1 |]. split; [exact H2 |]. exact Hc.
Qed.

Lemma le_best (scores l1 l2 : dict Q) (best item : string * Q) :
  scores = (l1 ++ best :: l2)%list ->
  Forall (fun item => snd item < snd best) l1 ->
  Forall (fun item => snd item <= snd best) l2 ->
  In item scores -> snd item <= snd best.
Proof.
  intros -> H1 H2 Hin. rewrite Forall_forall in H1, H2.
  apply in_app_or in Hin as [Hin | [<- | Hin]].
  - apply Qlt_le_weak. now apply H1.
  - apply Qle_refl.
  - now apply H2.
Qed.

Lemma listed_score (file_ext text : string) :
  existsb (accepts file_ext) keyword_patterns = true ->
  exists item,
    In item (category_scores_of file_ext text) /\ 0.4 <= snd item.
Proof.
  intros H. apply existsb_exists in H as [[cid pd] [Hin Hacc]].
  exists (cid, category_score file_ext text cid pd). split.
  - unfold category_scores_of.
    now apply (in_map (fun entry =>
                         (fst entry,
                          category_score file_ext text (fst entry) (snd entry))))
      in Hin.
  - apply category_score_listed; [| exact Hacc].
    exact (keyword_patterns_boost_nonneg _ _ Hin).
Qed.

Lemma select_result_extension (e1 e2 text : string) (scores : dict Q) :
  get_category_by_file_extension e1 = get_category_by_file_extension e2 ->
  select_result e1 text scores = select_result e2 text scores.
Proof. intros H. unfold select_result. now rewrite H. Qed.

(** X5. Every classification carries a score for each of the nine pattern
    categories, in the order of the pattern table, and every score lies
    between 0 and 1. *)
Theorem classifier_scores_shape :
  forall filename file_extension title,
  exists r,
    enhanced_auto_detect_category filename file_extension title = Some r
    /\ map fst (all_scores r)
       = ["film"; "screenplay"; "music"; "book_writing"; "digital_art";
          "photography"; "animation"; "gaming"; "software"]
    /\ Forall (fun item => 0 <= snd item /\ snd item <= 1) (all_scores r).
Proof.
  intros f e t.
  destruct (detect_cases f e t) as (r & _ & _ & _ & E & Ha & _).
  exists r. split; [exact E |]. rewrite Ha. split.
  - now rewrite category_scores_keys.
  - unfold category_scores_of. apply Forall_forall. intros item Hin.
    apply in_map_iff in Hin as [[cid pd] [<- Hin]]. simpl.
    apply category_score_bounds.
    exact (keyword_patterns_boost_nonneg _ _ Hin).
Qed.

(** X6. When the classifier answers by keyword analysis, the category it
    returns is a pattern category holding the greatest score, the first such
    in table order: earlier categories score strictly less, later ones at
    most as much. That score is at least 0.3, and the confidence is the
    score plus 0.05 capped at 0.98, hence at least 0.35. *)
Theorem keyword_analysis_picks_first_greatest_score :
  forall filename file_extension title r,
    enhanced_auto_detect_category filename file_extension title = Some r ->
    method r = enhanced_keyword_analysis ->
    exists c l1 l2,
      all_scores r = (l1 ++ (category r, c) :: l2)%list
      /\ Forall (fun item => snd item < c) l1
      /\ Forall (fun item => snd item <= c) l2
      /\ 0.3 <= c
      /\ confidence r = py_min (c + 0.05) 0.98
      /\ 0.35 <= confidence r
      /\ dict_mem (category r) keyword_patterns = true.
Proof.
  intros f e t r E Hm.
  destruct (detect_cases f e t)
    as (r' & best & l1 & l2 & E' & _ & Hs & H1 & H2 & Hc).
  rewrite E in E'. injection E' as <-.
  destruct Hc as [(_ & Hm' & _) | (Hlow & _ & Hcat & Hconf & pd & Hpd & _)].
  - rewrite Hm in Hm'. discriminate Hm'.
  - exists (snd best), l1, l2. rewrite Hcat, <- surjective_pairing.
    split; [exact Hs |]. split; [exact H1 |]. split; [exact H2 |].
    split; [exact Hlow |]. split; [exact Hconf |]. split.
    + rewrite Hconf. apply py_min_ge; [lra | discriminate].
    + unfold dict_mem. now rewrite Hpd.
Qed.

(** X6 at "song.mp3" with extension "mp3". *)
Lemma keyword_analysis_witness :
  exists r,
    enhanced_auto_detect_category "song.mp3" "mp3" "" = Some r
    /\ method r = enhanced_keyword_analysis
    /\ exists c l1 l2,
        all_scores r = (l1 ++ (category r, c) :: l2)%list
        /\ Forall (fun item => snd item < c) l1
        /\ Forall (fun item => snd item <= c) l2
        /\ 0.3 <= c
        /\ confidence r = py_min (c + 0.05) 0.98
        /\ 0.35 <= confidence r
        /\ dict_mem (category r) keyword_patterns = true.
Proof.
  eexists. split; [vm_compute; reflexivity |]. split; [reflexivity |].
  apply (keyword_analysis_picks_first_greatest_score "song.mp3" "mp3" "");
    [vm_compute; reflexivity | reflexivity].
Defined.

(** X7. The classifier ignores letter case in the file name, the extension
    and the title, and ignores a leading dot of the extension. *)
Theorem classifier_ignores_case_and_leading_dot :
  forall filename file_extension title,
    enhanced_auto_detect_category (Str.lower filename)
      (Str.lower file_extension) (Str.lower title)
    = enhanced_auto_detect_category filename file_extension title
    /\ enhanced_auto_detect_category filename
         (String "."%char file_extension) title
       = enhanced_auto_detect_category filename file_extension title.
Proof.
  intros f e t. unfold enhanced_auto_detect_category, text_to_analyze. split.
  - rewrite !lower_idem. apply select_result_extension.
    rewrite !get_category_by_file_extension_normalized.
    now rewrite normalize_extension_lower.
  - apply select_result_extension.
    now rewrite !get_category_by_file_extension_normalized.
Qed.

(** X8. When the normalised extension is a file type of some pattern
    category, the classifier never takes the file-extension fallback: it
    answers by keyword analysis, whatever the text, with a confidence of at
    least 0.45. *)
Theorem pattern_extension_is_keyword_analysis :
  forall filename file_extension title,
    existsb (accepts (normalize_extension file_extension)) keyword_patterns
    = true ->
    exists r,
      enhanced_auto_detect_category filename file_extension title = Some r
      /\ method r = enhanced_keyword_analysis
      /\ 0.45 <= confidence r
      /\ confidence r <= 0.98.
Proof.
  intros f e t Hacc.
  destruct (detect_cases f e t)
    as (r & best & l1 & l2 & E & Ha & Hs & H1 & H2 & Hc).
  destruct (listed_score _ (text_to_analyze f t) Hacc) as [item [Hin Hscore]].
  rewrite <- Ha in Hin.
  pose proof (le_best _ _ _ _ _ Hs H1 H2 Hin) as Hle.
  exists r. split; [exact E |].
  destruct Hc as [(Hlow & _) | (_ & Hm & _ & Hconf & _)]; [lra |].
  split; [exact Hm |]. rewrite Hconf. split.
  - apply py_min_ge; [lra | discriminate].
  - apply py_min_le_r.
Qed.

(** X8 at "holiday.MP4", whose text holds no keyword. *)
Lemma pattern_extension_witness :
  exists r,
    enhanced_auto_detect_category "holiday" ".MP4" "" = Some r
    /\ method r = enhanced_keyword_analysis
    /\ 0.45 <= confidence r
    /\ confidence r <= 0.98.
Proof.
  apply (pattern_extension_is_keyword_analysis "holiday" ".MP4" "").
  reflexivity.
Defined.

(** X9. When the classifier answers by the file-extension fallback, every
    pattern category scored below 0.3, no pattern lists the extension, the
    category is the one the extension lookup gives, a key of the category
    table, the confidence is 0.85 and no keyword is reported. *)
Theorem extension_fallback_facts :
  forall filename file_extension title r,
    enhanced_auto_detect_category filename file_extension title = Some r ->
    method r = file_extension_fallback ->
    Forall (fun item => snd item < 0.3) (all_scores r)
    /\ existsb (accepts (normalize_extension file_extension)) keyword_patterns
       = false
    /\ category r = get_category_by_file_extension file_extension
    /\ dict_mem (category r) CONTENT_CATEGORIES = true
    /\ confidence r = 0.85
    /\ detected_keywords r = [].
Proof.
  intros f e t r E Hm.
  destruct (detect_cases f e t)
    as (r' & best & l1 & l2 & E' & Ha & Hs & H1 & H2 & Hc).
  rewrite E in E'. injection E' as <-.
  destruct Hc as [(Hlow & _ & Hcat & Hconf & Hkw) | (_ & Hm' & _)];
    [| rewrite Hm in Hm'; discriminate Hm'].
  assert (Hall : Forall (fun item => snd item < 0.3) (all_scores r)).
  { apply Forall_forall. intros item Hin.
    pose proof (le_best _ _ _ _ _ Hs H1 H2 Hin). lra. }
  split; [exact Hall |]. split.
  - destruct (existsb _ keyword_patterns) eqn:Hacc; [| reflexivity].
    destruct (listed_score _ (text_to_analyze f t) Hacc) as [item [Hin Hscore]].
    rewrite <- Ha in Hin. rewrite Forall_forall in Hall.
    specialize (Hall item Hin). lra.
  - split; [exact Hcat |]. split; [| now split].
    rewrite Hcat. destruct (lookup_in_table e) as [cat [Eget _]].
    unfold dict_mem. now rewrite Eget.
Qed.

(** X9 at "notes.webp": no pattern lists "webp", the table's "digital_art"
    does. *)
Lemma extension_fallback_witness :
  exists r,
    enhanced_auto_detect_category "notes.webp" "webp" "" = Some r
    /\ method r = file_extension_fallback
    /\ Forall (fun item => snd item < 0.3) (all_scores r)
    /\ existsb (accepts (normalize_extension "webp")) keyword_patterns = false
    /\ category r = get_category_by_file_extension "webp"
    /\ dict_mem (category r) CONTENT_CATEGORIES = true
    /\ confidence r = 0.85
    /\ detected_keywords r = [].
Proof.
  eexists. split; [vm_compute; reflexivity |]. split; [reflexivity |].
  apply (extension_fallback_facts "notes.webp" "webp" "");
    [vm_compute; reflexivity | reflexivity].
Defined.

(** X10. Every keyword the classifier reports occurs in the lower-cased
    text "<file name> <title>" and is a keyword of the category returned,
    which was then chosen by keyword analysis. *)
Theorem detected_keywords_sound :
  forall filename file_extension title r kw,
    enhanced_auto_detect_category filename file_extension title = Some r ->
    In kw (detected_keywords r) ->
    Str.contains kw (text_to_analyze filename title) = true
    /\ method r = enhanced_keyword_analysis
    /\ exists pd,
        dict_get (category r) keyword_patterns = Some pd
        /\ In kw (keywords pd).
Proof.
  intros f e t r kw E Hin.
  destruct (detect_cases f e t)
    as (r' & best & l1 & l2 & E' & _ & _ & _ & _ & Hc).
  rewrite E in E'. injection E' as <-.
  destruct Hc as [(_ & _ & _ & _ & Hkw) | (_ & Hm & Hcat & _ & pd & Hpd & Hkw)].
  - rewrite Hkw in Hin. contradiction.
  - rewrite Hkw in Hin. apply filter_In in Hin as [Hin Hc].
    split; [exact Hc |]. split; [exact Hm |].
    exists pd. rewrite Hcat. now split.
Qed.

(** X10 at the screenplay scenario and the keyword "dialogue". *)
Lemma detected_keywords_witness :
  exists r,
    enhanced_auto_detect_category "my_screenplay_draft.pdf" "pdf"
      "Act One Dialogue" = Some r
    /\ In "dialogue" (detected_keywords r)
    /\ Str.contains "dialogue"
         (text_to_analyze "my_screenplay_draft.pdf" "Act One Dialogue") = true
    /\ method r = enhanced_keyword_analysis
    /\ exists pd,
        dict_get (category r) keyword_patterns = Some pd
        /\ In "dialogue" (keywords pd).
Proof.
  eexists. split; [vm_compute; reflexivity |].
  split; [simpl; tauto |].
  apply (detected_keywords_sound "my_screenplay_draft.pdf" "pdf"
           "Act One Dialogue");
    [vm_compute; reflexivity | simpl; tauto].
Defined.

(** ** More on the allocator *)

Lemma all_structures_exact :
  Forall (fun s =>
            sum_Z (map (fun item => int_div (1000 * percentage (snd item)) 100) s)
            = 1000%Z)
         all_structures.
Proof. repeat constructor. Qed.

(** X11. The budget is distributed in full: whatever the category, the
    extension, the analysis and the random draws, the token counts of an
    allocation sum to exactly its 1000 tokens. *)
Theorem budget_fully_distributed :
  forall cid analysis category file_extension w,
  exists t w',
    create_specialized_tokenization cid analysis category file_extension w
    = Some (t, w')
    /\ total_tokens t = 1000%Z
    /\ sum_Z (token_counts t) = total_tokens t.
Proof.
  intros cid analysis category file_extension w.
  destruct (create_specialized_tokenization_result
              cid analysis category file_extension w)
    as (s & t & w' & Es & Et & Htot & _ & Hentries & _).
  exists t, w'. split; [exact Et |]. split; [exact Htot |].
  unfold token_counts. rewrite (entries_token_counts _ _ _ _ Hentries), Htot.
  destruct (get_category_tokenization_structure_total
              (effective_category category file_extension))
    as (s' & Es' & Hin' & _).
  rewrite Es in Es'. injection Es' as <-.
  pose proof all_structures_exact as A. rewrite Forall_forall in A.
  exact (A s Hin').
Qed.

Lemma entries_fresh (self : SpecializedTokenizer) (factor : Q)
    (s : Structure) (tc : dict TokenEntry) :
  Forall2 (entry_for self factor) s tc ->
  Forall (fun cat => available_tokens (snd cat) = token_count (snd cat)
                     /\ sold_tokens (snd cat) = 0%Z) tc
  /\ map (fun cat => entry_description (snd cat)) tc
     = map (fun item => description (snd item)) s.
Proof.
  induction 1 as [| item e s tc He _ [IHa IHd]]; simpl; [now split |].
  destruct He as (_ & _ & Hav & Hsold & Hdesc & _).
  split; [constructor; [now split | exact IHa] |].
  now rewrite Hdesc, IHd.
Qed.

(** X12. Every allocation echoes the category it worked with and lists the
    buckets of the rights structure looked up for it, in the structure's
    order and with its descriptions; every bucket starts with all its
    tokens available and none sold. *)
Theorem buckets_follow_structure :
  forall cid analysis category file_extension w,
  exists s t w',
    create_specialized_tokenization cid analysis category file_extension w
    = Some (t, w')
    /\ content_category t = effective_category category file_extension
    /\ get_category_tokenization_structure (content_category t) = Some s
    /\ map fst (token_categories t) = map fst s
    /\ map (fun cat => entry_description (snd cat)) (token_categories t)
       = map (fun item => description (snd item)) s
    /\ Forall (fun cat => available_tokens (snd cat) = token_count (snd cat)
                          /\ sold_tokens (snd cat) = 0%Z)
              (token_categories t).
Proof.
  intros cid analysis category file_extension w.
  destruct (create_specialized_tokenization_result
              cid analysis category file_extension w)
    as (s & t & w' & Es & Et & _ & Hcat & Hentries & _).
  destruct (entries_fresh _ _ _ _ Hentries) as [Hfresh Hdesc].
  exists s, t, w'. rewrite Hcat.
  split; [exact Et |]. split; [reflexivity |]. split; [exact Es |].
  split; [exact (entries_keys _ _ _ _ Hentries) |].
  split; [exact Hdesc | exact Hfresh].
Qed.

(** X13. A category that is a key of the category table is allocated with
    its own rights structure: the buckets of the allocation are those of the
    table entry, and the allocation echoes the category. *)
Theorem listed_category_uses_own_structure :
  forall cid analysis category file_extension w cat,
    dict_get category CONTENT_CATEGORIES = Some cat ->
    exists t w',
      create_specialized_tokenization cid analysis (Some category)
        file_extension w = Some (t, w')
      /\ content_category t = category
      /\ map fst (token_categories t) = map fst (tokenization_structure cat)
      /\ Forall2 (entry_for SpecializedTokenizer_init
                            (originality_factor_of analysis))
                 (tokenization_structure cat) (token_categories t).
Proof.
  intros cid analysis category file_extension w cat Hget.
  destruct category as [| c rest]; [vm_compute in Hget; discriminate Hget |].
  destruct (create_specialized_tokenization_result
              cid analysis (Some (String c rest)) file_extension w)
    as (s & t & w' & Es & Et & _ & Hcat & Hentries & _).
  simpl effective_category in *.
  destruct (get_category_tokenization_structure_total (String c rest))
    as (s' & Es' & _ & _ & Hown).
  rewrite Es in Es'. injection Es' as <-. rewrite (Hown cat Hget) in *.
  exists t, w'. split; [exact Et |]. split; [exact Hcat |].
  split; [exact (entries_keys _ _ _ _ Hentries) | exact Hentries].
Qed.

(** X13 at the category "photography". *)
Lemma listed_category_witness :
  exists cat t w',
    dict_get "photography" CONTENT_CATEGORIES = Some cat
    /\ create_specialized_tokenization "id1" [] (Some "photography") None
         (constant_world (1 # 2)) = Some (t, w')
    /\ content_category t = "photography"
    /\ map fst (token_categories t) = map fst (tokenization_structure cat)
    /\ Forall2 (entry_for SpecializedTokenizer_init (originality_factor_of []))
               (tokenization_structure cat) (token_categories t).
Proof.
  eexists. 
  destruct (listed_category_uses_own_structure "id1" [] "photography" None
              (constant_world (1 # 2)) _ eq_refl) as (t & w' & H).
  exists t, w'. split; [reflexivity | exact H].
Defined.

(** X14. Called without a category (absent or empty), the allocator takes
    the category from the extension lookup when an extension is given and
    "digital_art" otherwise; either way the category is a key of the table
    and the allocation carries that category's own buckets. *)
Theorem missing_category_is_resolved :
  forall cid analysis category file_extension w,
    truthy category = false ->
    exists t w' cat,
      create_specialized_tokenization cid analysis category file_extension w
      = Some (t, w')
      /\ content_category t
         = (if truthy file_extension
            then get_category_by_file_extension
                   (match file_extension with Some e => e | None => "" end)
            else "digital_art")
      /\ dict_get (content_category t) CONTENT_CATEGORIES = Some cat
      /\ map fst (token_categories t) = map fst (tokenization_structure cat).
Proof.
  intros cid analysis category file_extension w Hfalsy.
  destruct (create_specialized_tokenization_result
              cid analysis category file_extension w)
    as (s & t & w' & Es & Et & _ & Hcat & Hentries & _).
  assert (Heff : effective_category category file_extension
                 = if truthy file_extension
                   then get_category_by_file_extension
                          (match file_extension with Some e => e | None => "" end)
                   else "digital_art").
  { destruct category as [[| c rest] |]; try discriminate Hfalsy;
      now destruct file_extension as [[| c' rest'] |]. }
  assert (Hkey : exists cat,
             dict_get (effective_category category file_extension)
                      CONTENT_CATEGORIES = Some cat).
  { rewrite Heff. destruct (truthy file_extension).
    - destruct (lookup_in_table
                  (match file_extension with Some e => e | None => "" end))
        as [cat [Eget _]]. now exists cat.
    - eexists. reflexivity. }
  destruct Hkey as [cat Hkey].
  destruct (get_category_tokenization_structure_total
              (effective_category category file_extension))
    as (s' & Es' & _ & _ & Hown).
  rewrite Es in Es'. injection Es' as <-. rewrite (Hown cat Hkey) in *.
  exists t, w', cat. rewrite Hcat.
  split; [exact Et |]. split; [exact Heff |]. split; [exact Hkey |].
  exact (entries_keys _ _ _ _ Hentries).
Qed.

(** X14 at an absent category and the extension ".WAV". *)
Lemma missing_category_witness :
  exists t w' cat,
    create_specialized_tokenization "id1" [] None (Some ".WAV")
      (constant_world (1 # 2)) = Some (t, w')
    /\ content_category t = get_category_by_file_extension ".WAV"
    /\ dict_get (content_category t) CONTENT_CATEGORIES = Some cat
    /\ map fst (token_categories t) = map fst (tokenization_structure cat).
Proof.
  exact (missing_category_is_resolved "id1" [] None (Some ".WAV")
           (constant_world (1 # 2)) eq_refl).
Defined.

Ltac split_category c :=
  repeat match goal with
         | |- context [String.eqb c ?k] =>
             destruct (String.eqb_spec c k) as [-> | _]
         end.

Ltac unfold_tokenizers :=
  unfold tokenize_film, tokenize_animation, tokenize_screenplay,
    tokenize_book_writing, tokenize_digital_art, tokenize_video_games,
    tokenize_generic, bind, lift_option, random_uniform,
    _create_base_tokenization, time_time, ret.

Lemma draws_consumed_unlisted (c : string) :
  c <> "film" -> c <> "animation" -> c <> "screenplay" ->
  c <> "book_writing" -> c <> "digital_art" -> c <> "video_games" ->
  draws_consumed c = 0%nat.
Proof.
  intros H1 H2 H3 H4 H5 H6. unfold draws_consumed, Str.mem. cbn [existsb].
  apply String.eqb_neq in H1, H2, H3, H4, H5, H6.
  now rewrite H1, H2, H3, H4, H5, H6.
Qed.

Ltac world_case name k :=
  let s := fresh "s" in
  let Es := fresh "Es" in
  destruct (get_category_tokenization_structure_total name) as [s [Es _]];
  unfold_tokenizers; rewrite Es;
  change (draws_consumed name) with k;
  eexists; split; [reflexivity | now repeat split].

(** The world a tokenizer leaves, and the fields it copies. *)
Lemma tokenizer_world (self : SpecializedTokenizer) (c cid : string)
    (analysis : Analysis) (w : World) :
  exists t,
    get_specialized_tokenizer self c cid analysis w
    = Some (t, advance w (draws_consumed c))
    /\ created_timestamp t = clock w
    /\ originality_factor t = originality_factor_of analysis
    /\ version t = "1.1"
    /\ content_id t = cid.
Proof.
  destruct w as [draws pos clk].
  unfold get_specialized_tokenizer, tokenizer_map. cbn [dict_get].
  destruct (String.eqb_spec c "film") as [-> | N1]; [world_case "film" 4%nat |].
  destruct (String.eqb_spec c "animation") as [-> | N2];
    [world_case "animation" 4%nat |].
  destruct (String.eqb_spec c "screenplay") as [-> | N3];
    [world_case "screenplay" 4%nat |].
  destruct (String.eqb_spec c "book_writing") as [-> | N4];
    [world_case "book_writing" 4%nat |].
  destruct (String.eqb_spec c "digital_art") as [-> | N5];
    [world_case "digital_art" 4%nat |].
  destruct (String.eqb_spec c "video_games") as [-> | N6];
    [world_case "video_games" 6%nat |].
  rewrite (draws_consumed_unlisted c N1 N2 N3 N4 N5 N6).
  destruct (get_category_tokenization_structure_total c) as [s [Es _]].
  split_category c; unfold_tokenizers; rewrite ?Es;
    (eexists; split; [reflexivity | now repeat split]).
Qed.

(** X15. An allocation reads the clock once for its timestamp and advances
    the random source by exactly the number of quality factors of its
    category: four for film, animation, screenplay, book_writing and
    digital_art, six for video_games, none for any other category. *)
Theorem random_draws_consumed :
  forall cid analysis category file_extension w,
  exists t,
    create_specialized_tokenization cid analysis category file_extension w
    = Some (t, advance w (draws_consumed
                            (effective_category category file_extension)))
    /\ created_timestamp t = clock w
    /\ content_id t = cid
    /\ version t = "1.1".
Proof.
  intros cid analysis category file_extension w.
  unfold create_specialized_tokenization.
  change (match category, file_extension with
          | Some (String c s), _ => String c s
          | _, Some (String c s) => get_category_by_file_extension (String c s)
          | _, _ => "digital_art"
          end) with (effective_category category file_extension).
  destruct (tokenizer_world SpecializedTokenizer_init
              (effective_category category file_extension) cid analysis w)
    as (t & Et & Hts & _ & Hv & Hcid).
  unfold bind. cbv zeta. rewrite Et.
  eexists. split; [reflexivity |]. simpl. now repeat split.
Qed.

Lemma generic_dispatch (self : SpecializedTokenizer) (c cid : string)
    (analysis : Analysis) (w : World) :
  draws_consumed c = 0%nat ->
  get_specialized_tokenizer self c cid analysis w
  = tokenize_generic self cid analysis c w.
Proof.
  intros H. unfold get_specialized_tokenizer, tokenizer_map. cbn [dict_get].
  split_category c; try discriminate H; reflexivity.
Qed.

(** X16. For a category without quality factors (photography,
    music_composition, podcast_audio, software_code and every unlisted
    string) the allocation does not depend on the random source: in two
    worlds showing the same time it is the same. *)
Theorem generic_allocation_ignores_random_source :
  forall cid analysis category file_extension w1 w2,
    draws_consumed (effective_category category file_extension) = 0%nat ->
    clock w1 = clock w2 ->
    option_map fst
      (create_specialized_tokenization cid analysis category file_extension w1)
    = option_map fst
        (create_specialized_tokenization cid analysis category file_extension w2).
Proof.
  intros cid analysis category file_extension w1 w2 Hgen Hclock.
  unfold create_specialized_tokenization.
  change (match category, file_extension with
          | Some (String c s), _ => String c s
          | _, Some (String c s) => get_category_by_file_extension (String c s)
          | _, _ => "digital_art"
          end) with (effective_category category file_extension).
  unfold bind. cbv zeta.
  rewrite !(generic_dispatch _ _ _ _ _ Hgen).
  unfold_tokenizers.
  destruct (get_category_tokenization_structure
              (effective_category category file_extension));
    [| reflexivity].
  simpl. now rewrite Hclock.
Qed.

(** X16 at "photography" and two worlds with different random sources. *)
Lemma generic_allocation_witness :
  option_map fst
    (create_specialized_tokenization "id1" [("originality_score", 80)]
       (Some "photography") None (constant_world (1 # 10)))
  = option_map fst
      (create_specialized_tokenization "id1" [("originality_score", 80)]
         (Some "photography") None (constant_world (9 # 10))).
Proof.
  apply (generic_allocation_ignores_random_source "id1"
           [("originality_score", 80)] (Some "photography") None
           (constant_world (1 # 10)) (constant_world (9 # 10)));
    reflexivity.
Defined.

Lemma tokenizer_reads_factor_only (self : SpecializedTokenizer) (c cid : string)
    (a1 a2 : Analysis) (w : World) :
  originality_factor_of a1 = originality_factor_of a2 ->
  get_specialized_tokenizer self c cid a1 w
  = get_specialized_tokenizer self c cid a2 w.
Proof.
  intros H. unfold get_specialized_tokenizer, tokenizer_map.
  cbn [dict_get]. split_category c; unfold_tokenizers; now rewrite H.
Qed.

(** X17. An analysis without an originality score is treated as one with
    the score 90: both give the same allocation. *)
Theorem absent_score_defaults_to_90 :
  forall cid analysis category file_extension w,
    dict_get "originality_score" analysis = None ->
    create_specialized_tokenization cid analysis category file_extension w
    = create_specialized_tokenization cid
        (("originality_score", 90) :: analysis) category file_extension w.
Proof.
  intros cid analysis category file_extension w Hnone.
  unfold create_specialized_tokenization, bind. cbv zeta.
  rewrite (tokenizer_reads_factor_only _ _ _ analysis
             (("originality_score", 90) :: analysis)); [reflexivity |].
  unfold originality_factor_of. now rewrite Hnone.
Qed.

(** X17 at the empty analysis. *)
Lemma absent_score_witness :
  create_specialized_tokenization "id1" [] (Some "film") None
    (constant_world (1 # 2))
  = create_specialized_tokenization "id1" [("originality_score", 90)]
      (Some "film") None (constant_world (1 # 2)).
Proof.
  exact (absent_score_defaults_to_90 "id1" [] (Some "film") None
           (constant_world (1 # 2)) eq_refl).
Defined.

(** ** Rounding is monotone *)





(** ** Value bounds *)









